(** * restartcheck: which packages hold deleted files open

    A shallow embedding of [salt/modules/restartcheck.py].  Python strings
    are [string]s, process ids are [Z], the [/proc] file system, the package
    manager and the service manager are the fields of a [World] record that
    the functions read, and an uncaught Python exception is the [Raise]
    result of the small error monad below. *)

From Stdlib Require Import ZArith Ascii String Bool Lia.
From stdpp Require Import base option list strings pretty gmap.

Local Open Scope Z_scope.

(** ** Python string primitives *)

Module PyStr.

Definition LF : ascii := "010"%char.
Definition TAB : ascii := "009"%char.
Definition nl : string := String LF "".
Definition tab : string := String TAB "".

(** [s.startswith(p)] *)
Fixpoint startswith (s p : string) {struct p} : bool :=
  match p, s with
  | EmptyString, _ => true
  | String a p', String b s' => Ascii.eqb a b && startswith s' p'
  | String _ _, EmptyString => false
  end.

(** [s.endswith(suf)] *)
Fixpoint endswith (s suf : string) : bool :=
  String.eqb s suf ||
  match s with
  | EmptyString => false
  | String _ s' => endswith s' suf
  end.

(** [s.find(sub)]: the lowest index of [sub] in [s], or [-1]. *)
Fixpoint find (s sub : string) : Z :=
  if startswith s sub then 0
  else match s with
       | EmptyString => -1
       | String _ s' => let r := find s' sub in if r <? 0 then -1 else r + 1
       end.

(** [sub in s] *)
Definition contains (s sub : string) : bool := 0 <=? find s sub.

(** [s[n:]] for a literal [n >= 0] *)
Fixpoint drop_str (n : nat) (s : string) : string :=
  match n, s with
  | O, _ => s
  | S n', String _ s' => drop_str n' s'
  | S _, EmptyString => EmptyString
  end.

(** [s[:n]] for [n >= 0] *)
Fixpoint take_str (n : nat) (s : string) : string :=
  match n, s with
  | S n', String c s' => String c (take_str n' s')
  | _, _ => EmptyString
  end.

(** [s[0:-n]] for a literal [n > 0]: everything but the last [n]
    characters, the empty string when [s] has at most [n] of them. *)
Definition drop_last (n : nat) (s : string) : string :=
  take_str (String.length s - n)%nat s.

(** membership of a character in the character set of [strip]/[rstrip] *)
Fixpoint mem_char (c : ascii) (chars : string) : bool :=
  match chars with
  | EmptyString => false
  | String d cs => Ascii.eqb c d || mem_char c cs
  end.

(** [s.lstrip(chars)] *)
Fixpoint lstrip (s chars : string) : string :=
  match s with
  | EmptyString => EmptyString
  | String c s' => if mem_char c chars then lstrip s' chars else s
  end.

(** [s.rstrip(chars)] *)
Fixpoint rstrip (s chars : string) : string :=
  match s with
  | EmptyString => EmptyString
  | String c s' =>
      match rstrip s' chars with
      | EmptyString => if mem_char c chars then EmptyString else String c EmptyString
      | r => String c r
      end
  end.

(** [s.strip(chars)] *)
Definition strip (s chars : string) : string := rstrip (lstrip s chars) chars.

End PyStr.

Import PyStr.

(** ** More of the Python library: lines, paths, indexing *)

Module PyLib.

Definition CR : ascii := "013"%char.

(** the line boundaries of [str.splitlines] below U+0100 *)
Definition is_linebreak (c : ascii) : bool :=
  let n := N_of_ascii c in
  ((10 <=? n) && (n <=? 13) || (28 <=? n) && (n <=? 30) || (n =? 133))%N.

(** [s.splitlines()]: [cur] is the line read so far, [after_cr] tells that
    the previous character was a carriage return, so that a line feed
    that follows belongs to the same boundary. *)
Fixpoint splitlines_go (cur : string) (after_cr : bool) (s : string) : list string :=
  match s with
  | EmptyString => if String.eqb cur "" then [] else [cur]
  | String c s' =>
      if Ascii.eqb c LF && after_cr then splitlines_go cur false s'
      else if is_linebreak c then cur :: splitlines_go "" (Ascii.eqb c CR) s'
      else splitlines_go (cur +:+ String c "") false s'
  end.

Definition splitlines (s : string) : list string := splitlines_go "" false s.

(** [f.readlines()], and the lines that repeated [f.readline()] returns
    until the empty string: every line keeps its line feed. *)
Fixpoint readlines (s : string) : list string :=
  match s with
  | EmptyString => []
  | String c s' =>
      if Ascii.eqb c LF then String c "" :: readlines s'
      else match readlines s' with
           | [] => [String c ""]
           | l :: ls => String c l :: ls
           end
  end.

(** [s.split(sep, 1)[0]] for a one-character [sep] *)
Fixpoint before_first (sep : ascii) (s : string) : string :=
  match s with
  | EmptyString => EmptyString
  | String c s' => if Ascii.eqb c sep then EmptyString else String c (before_first sep s')
  end.

(** [s.rsplit(sep, 1)] for a one-character [sep]: [inl s] is the list [[s]]
    when [sep] does not occur, [inr (a, b)] is [[a, b]]. *)
Fixpoint rsplit1 (sep : ascii) (s : string) : string + string * string :=
  match s with
  | EmptyString => inl EmptyString
  | String c s' =>
      match rsplit1 sep s' with
      | inr (a, b) => inr (String c a, b)
      | inl r => if Ascii.eqb c sep then inr (EmptyString, r) else inl (String c r)
      end
  end.

(** [os.path.basename(p)] *)
Fixpoint basename (p : string) : string :=
  match p with
  | EmptyString => EmptyString
  | String c p' =>
      if contains p' "/" then basename p'
      else if Ascii.eqb c "/" then p' else p
  end.

(** [os.path.join(a, b)] *)
Definition path_join (a b : string) : string :=
  if startswith b "/" then b
  else if String.eqb a "" || endswith a "/" then a +:+ b
  else a +:+ "/" +:+ b.

(** white space below U+0100 *)
Definition is_space (c : ascii) : bool :=
  let n := N_of_ascii c in
  ((9 <=? n) && (n <=? 13) || (28 <=? n) && (n <=? 32) || (n =? 133) || (n =? 160))%N.

(** [s.rstrip()] *)
Fixpoint rstrip_space (s : string) : string :=
  match s with
  | EmptyString => EmptyString
  | String c s' =>
      match rstrip_space s' with
      | EmptyString => if is_space c then EmptyString else String c EmptyString
      | r => String c r
      end
  end.

(** [s.lstrip()] *)
Fixpoint lstrip_space (s : string) : string :=
  match s with
  | EmptyString => EmptyString
  | String c s' => if is_space c then lstrip_space s' else s
  end.

(** [int(s)] for a decimal literal; [None] is [ValueError] *)
Fixpoint digits_value (acc : Z) (s : string) : option Z :=
  match s with
  | EmptyString => Some acc
  | String c s' =>
      let n := N_of_ascii c in
      if ((48 <=? n) && (n <=? 57))%N
      then digits_value (10 * acc + Z.of_N (n - 48)) s'
      else None
  end.

Definition py_int (s : string) : option Z :=
  let t := rstrip_space (lstrip_space s) in
  match t with
  | String "-" (String c r) => Z.opp <$> digits_value 0 (String c r)
  | String "+" (String c r) => digits_value 0 (String c r)
  | String c r => digits_value 0 (String c r)
  | EmptyString => None
  end.

End PyLib.

Import PyLib.

(** ** Exceptions that escape a function *)

Inductive exn := IndexError | NameError | OSError | ValueError.

Inductive result (A : Type) :=
  | Ok (a : A)
  | Raise (e : exn).
Arguments Ok {A} a.
Arguments Raise {A} e.

#[global] Instance result_ret : MRet result := fun A a => Ok a.
#[global] Instance result_bind : MBind result := fun A B f m =>
  match m with
  | Ok a => f a
  | Raise e => Raise e
  end.

(** an [option] whose [None] is the exception [e] *)
Definition or_raise {A} (e : exn) (o : option A) : result A :=
  match o with
  | Some a => Ok a
  | None => Raise e
  end.

(** [l[i]] with Python's negative indices *)
Definition py_index {A} (l : list A) (i : Z) : result A :=
  let n := Z.of_nat (length l) in
  let j := if i <? 0 then i + n else i in
  if (j <? 0) || (n <=? j) then Raise IndexError
  else or_raise IndexError (l !! Z.to_nat j).

(** ** Regular expressions as backtracking matchers

    Python's [re] is a backtracking matcher: a greedy repetition first tries
    to take one more character and gives it back when the rest of the
    pattern fails.  A pattern is written here as a function from the
    matcher of what follows it (a continuation on the remaining input) to a
    matcher. *)

Module Re.

Section Matchers.
Context {R : Type}.

Definition cont := string -> option R.

(** a literal string *)
Definition lit (l : string) (k : cont) : cont := fun s =>
  if startswith s l then k (drop_str (String.length l) s) else None.

(** one character of a class *)
Definition cls (p : ascii -> bool) (k : cont) : cont := fun s =>
  match s with
  | String c s' => if p c then k s' else None
  | EmptyString => None
  end.

(** [c*], greedy *)
Fixpoint star (p : ascii -> bool) (k : cont) (s : string) : option R :=
  match s with
  | String c s' =>
      if p c then
        match star p k s' with
        | Some r => Some r
        | None => k s
        end
      else k s
  | EmptyString => k s
  end.

(** [c+], greedy *)
Definition plus (p : ascii -> bool) (k : cont) : cont := cls p (star p k).

(** [(...)?], greedy *)
Definition opt (m : cont -> cont) (k : cont) : cont := fun s =>
  match m k s with
  | Some r => Some r
  | None => k s
  end.

(** [$] without MULTILINE: the end of the string, or just before a newline
    that ends the string *)
Definition eol (k : cont) : cont := fun s =>
  if String.eqb s "" || String.eqb s nl then k s else None.

(** a capturing group: the continuation receives the text the group matched *)
Definition capture (m : cont -> cont) (k : string -> cont) : cont := fun s =>
  m (fun rest => k (take_str (String.length s - String.length rest)%nat s) rest) s.

(** [pattern.search(s)]: the first position where the pattern matches *)
Fixpoint search (m : cont) (s : string) : option R :=
  match m s with
  | Some r => Some r
  | None =>
      match s with
      | EmptyString => None
      | String _ s' => search m s'
      end
  end.

End Matchers.

Definition digit (c : ascii) : bool :=
  let n := N_of_ascii c in ((48 <=? n) && (n <=? 57))%N.

(** [[\da-f]] *)
Definition hex (c : ascii) : bool :=
  let n := N_of_ascii c in digit c || ((97 <=? n) && (n <=? 102))%N.

(** [[xy]] *)
Definition one_of (chars : string) (c : ascii) : bool := mem_char c chars.

(** [.] *)
Definition dot (c : ascii) : bool := negb (Ascii.eqb c LF).

End Re.

(** ** The path classifier *)

(** the pattern [\(path inode=[0-9]+\)$] *)
Definition inode_re : @Re.cont unit :=
  Re.lit "(path inode=" (Re.plus Re.digit (Re.lit ")" (Re.eol (fun _ => Some tt)))).

Definition inode_search (path : string) : bool :=
  match Re.search inode_re path with Some _ => true | None => false end.

Definition _valid_deleted_file (path : string) : bool :=
  let ret := false in
  let ret := if endswith path " (deleted)" then true else ret in
  let ret := if inode_search path then true else ret in
  let ret := if startswith path "/var/log/" || startswith path "/var/local/log/" then false else ret in
  let ret := if startswith path "/var/run/" || startswith path "/var/local/run/" then false else ret in
  let ret := if startswith path "/tmp/" then false else ret in
  let ret := if startswith path "/dev/shm/" then false else ret in
  let ret := if startswith path "/run/" then false else ret in
  let ret := if startswith path "/drm" then false else ret in
  let ret := if startswith path "/var/tmp/" || startswith path "/var/local/tmp/" then false else ret in
  let ret := if startswith path "/dev/zero" then false else ret in
  let ret := if startswith path "/dev/pts/" then false else ret in
  let ret := if startswith path "/usr/lib/locale/" then false else ret in
  let ret := if startswith path "/home/" then false else ret in
  let ret := if endswith path "icon-theme.cache" then false else ret in
  let ret := if startswith path "/var/cache/fontconfig/" then false else ret in
  let ret := if startswith path "/var/lib/nagios3/spool/" then false else ret in
  let ret := if startswith path "/var/lib/nagios3/spool/checkresults/" then false else ret in
  let ret := if startswith path "/var/lib/postgresql/" then false else ret in
  let ret := if startswith path "/var/lib/vdr/" then false else ret in
  let ret := if startswith path "/[aio]" then false else ret in
  let ret := if startswith path "/SYSV" then false else ret in
  ret.

(** The prefixes tested by the exclusion rules of [_valid_deleted_file], in
    the order of the source. *)
Definition exclusion_prefixes : list string :=
  [ "/var/log/"; "/var/local/log/"; "/var/run/"; "/var/local/run/"; "/tmp/";
    "/dev/shm/"; "/run/"; "/drm"; "/var/tmp/"; "/var/local/tmp/"; "/dev/zero";
    "/dev/pts/"; "/usr/lib/locale/"; "/home/"; "/var/cache/fontconfig/";
    "/var/lib/nagios3/spool/"; "/var/lib/nagios3/spool/checkresults/";
    "/var/lib/postgresql/"; "/var/lib/vdr/"; "/[aio]"; "/SYSV" ].

Definition under_exclusion_prefix (path : string) : bool :=
  existsb (startswith path) exclusion_prefixes.


(** ** The world the module runs in

    What the module reads from the operating system and from Salt's other
    modules.  A [None] of a file-system field is the [OSError]/[IOError]
    of the Python call. *)

Record World := {
  (** [__grains__] *)
  grains_os_family : option string;
  grains_os : string;
  grains_cpuarch : string;
  (** [psutil.process_iter()]: for each process the result of
      [proc.as_dict(attrs=['pid', 'name'])], the pair of its name and pid;
      [None] when it raises [psutil.NoSuchProcess]. *)
  process_iter : list (option (string * Z));
  (** [salt.utils.files.fopen(path)] followed by reading: the contents *)
  fopen : string -> option string;
  listdir : string -> option (list string);
  readlink : string -> option string;
  isfile : string -> bool;
  isdir : string -> bool;
  path_exists : string -> bool;
  getmtime : string -> option Z;
  (** [salt.utils.path.os_walk(top, followlinks=True)]: the pairs of a
      directory and the names of the files in it *)
  os_walk : string -> list (string * list string);
  (** [__salt__['cmd.run']], [cmd.shell], [cmd.retcode], [file.read] *)
  cmd_run : string -> string;
  cmd_shell : string -> string;
  cmd_retcode : string -> Z;
  file_read : string -> string;
  (** the standard output of [subprocess.Popen(cmd, shell=True)] *)
  popen_stdout : string -> string;
  (** [__salt__['pkg.owner']]: the empty string when no package owns the file *)
  pkg_owner : string -> string;
  service_available : string -> bool;
  reboot_required_witnessed : bool
}.

(** ** The scanner of [/proc] *)

(** a deleted-file record: process name, pid, path *)
Definition record : Type := string * Z * string.

(** [if val not in deleted_files: deleted_files.append(val)] *)
Definition add_record (val : record) (deleted_files : list record) : list record :=
  if bool_decide (val ∈ deleted_files) then deleted_files else deleted_files ++ [val].

(** The pattern of a line of [/proc/PID/maps]; the result is [group(2)]:
    [^[\da-f]+-[\da-f]+ [r-][w-][x-][sp-] [\da-f]+ [\da-f]{2}:[\da-f]{2} (\d+) *(.+)( \(deleted\))?\n$] *)
Definition mapline_match : string -> option string :=
  Re.plus Re.hex (Re.lit "-" (Re.plus Re.hex (Re.lit " "
  (Re.cls (Re.one_of "r-") (Re.cls (Re.one_of "w-")
  (Re.cls (Re.one_of "x-") (Re.cls (Re.one_of "sp-") (Re.lit " "
  (Re.plus Re.hex (Re.lit " "
  (Re.cls Re.hex (Re.cls Re.hex (Re.lit ":" (Re.cls Re.hex (Re.cls Re.hex (Re.lit " "
  (Re.plus Re.digit (Re.star (Re.one_of " ")
  (Re.capture (Re.plus Re.dot) (fun path =>
  Re.opt (Re.lit " (deleted)") (Re.lit nl (Re.eol (fun _ => Some path)))
  )))))))))))))))))))).

(** the loop over the lines of [/proc/PID/maps] *)
Definition scan_maps (name : string) (pid : Z) (maplines : list string)
    (deleted_files : list record) : list record :=
  foldl (fun deleted_files line =>
      match mapline_match line with
      | Some path =>
          if negb (String.eqb path "") && _valid_deleted_file path
          then add_record (name, pid, drop_last 10 path) deleted_files
          else deleted_files
      | None => deleted_files
      end) deleted_files maplines.

(** the file names that an entry of [/proc/PID/fd] stands for *)
Definition fd_filenames (w : World) (target : string) : list string :=
  if isfile w target then [target]
  else if isdir w target && negb (String.eqb target "/")
  then flat_map (fun '(root, files) => map (path_join root) files) (os_walk w target)
  else [].

(** the loop over the entries of [/proc/PID/fd]; an [OSError] of
    [os.readlink] ends it, keeping what was collected *)
Fixpoint scan_fds (w : World) (name : string) (pid : Z) (dirpath : string)
    (links : list string) (deleted_files : list record) : list record :=
  match links with
  | [] => deleted_files
  | link :: links' =>
      match readlink w (dirpath +:+ link) with
      | None => deleted_files
      | Some target =>
          scan_fds w name pid dirpath links'
            (foldl (fun deleted_files filename =>
                 if _valid_deleted_file filename
                 then add_record (name, pid, filename) deleted_files
                 else deleted_files) deleted_files (fd_filenames w target))
      end
  end.

(** the loop over the processes; [None] is the [False] of the source *)
Fixpoint scan_processes (w : World) (procs : list (option (string * Z)))
    (deleted_files : list record) : option (list record) :=
  match procs with
  | [] => Some deleted_files
  | None :: procs' => scan_processes w procs' deleted_files
  | Some (name, pid) :: procs' =>
      match fopen w ("/proc/" +:+ pretty pid +:+ "/maps") with
      | None => None
      | Some maps =>
          let dirpath := "/proc/" +:+ pretty pid +:+ "/fd/" in
          match listdir w dirpath with
          | None => None
          | Some links =>
              scan_processes w procs'
                (scan_fds w name pid dirpath links
                   (scan_maps name pid (readlines maps) deleted_files))
          end
      end
  end.

Definition _deleted_files (w : World) : option (list record) :=
  scan_processes w (process_iter w) [].

(** ** The last installed kernel *)

(** [try: kernel = kernels[-2] except IndexError: kernel = kernels[0]] *)
Definition debian_select_kernel (kernels : list string) : result string :=
  match py_index kernels (-2) with
  | Ok kernel => Ok kernel
  | Raise IndexError => py_index kernels 0
  | Raise e => Raise e
  end.

(** the lines of [dpkg --get-selections linux-image-*] *)
Definition debian_kernels (w : World) : list string :=
  splitlines (cmd_run w "dpkg --get-selections linux-image-*").

Definition _kernel_versions_debian (w : World) : result (list string) :=
  let kernels := debian_kernels w in
  kernel ← debian_select_kernel kernels;
  let kernel := rstrip kernel (tab +:+ tab +:+ "install") in
  let kernel_get_version := cmd_run w ("apt-cache policy " +:+ kernel) in
  let kernel_versions :=
    match List.find (fun line => startswith line "  Installed: ")
            (splitlines kernel_get_version) with
    | Some line => [strip line "  Installed: "]
    | None => []
    end in
  if String.eqb (grains_os w) "Ubuntu" then
    kernel_versions_0 ← py_index kernel_versions 0;
    match rsplit1 "." kernel_versions_0 with
    | inr (kernel_v_0, kernel_v_1) =>
        let kernel_ubuntu_generic := kernel_v_0 +:+ "-generic #" +:+ kernel_v_1 in
        let kernel_ubuntu_lowlatency := kernel_v_0 +:+ "-lowlatency #" +:+ kernel_v_1 in
        Ok (kernel_versions ++ [kernel_ubuntu_generic; kernel_ubuntu_lowlatency])
    | inl _ => Raise IndexError
    end
  else Ok kernel_versions.

Definition _kernel_versions_redhat (w : World) : result (list string) :=
  let kernel_get_last := cmd_run w "rpm -q --last kernel" in
  let kernels := List.filter (fun line => contains line "kernel-")
                    (splitlines kernel_get_last) in
  kernels_0 ← py_index kernels 0;
  let kernel := before_first " " kernels_0 in
  let kernel := strip kernel "kernel-" in
  Ok [kernel].

Definition _is_older_nilrt (w : World) : bool :=
  path_exists w "/usr/local/natinst/bin/nisafemodeversion".

Definition kv_cmd (image : string) : string :=
  "strings " +:+ image +:+ " | awk '$1 ~ /[0-9]+\.[0-9]+\.[0-9]+-rt/ {print $1}' | head -n1".

Definition _kernel_versions_nilrt (w : World) : result (list string) :=
  kernel ←
    (if _is_older_nilrt w then
       if contains (grains_cpuarch w) "arm"
       then (* [dumpimage] and [gunzip] are run first, their output is unused *)
            Ok (cmd_shell w (kv_cmd "/var/volatile/tmp/uImage"))
       else Ok (cmd_shell w (kv_cmd "/boot/runmode/bzImage"))
     else
       if contains (grains_cpuarch w) "arm"
       then target ← or_raise OSError (readlink w "/boot/uImage");
            Ok (strip (basename target) "uImage-")
       else target ← or_raise OSError (readlink w "/boot/bzImage");
            Ok (strip (basename target) "bzImage-"));
  Ok [kernel].

Definition _file_changed_nilrt (w : World) (full_filepath : string) : result bool :=
  let rs_state_dir := "/var/lib/salt/restartcheck_state" in
  let base_filename := basename full_filepath in
  let timestamp_file := path_join rs_state_dir (base_filename +:+ ".timestamp") in
  let md5sum_file := path_join rs_state_dir (base_filename +:+ ".md5sum") in
  if negb (path_exists w timestamp_file) || negb (path_exists w md5sum_file) then Ok true
  else
    let prev_timestamp := rstrip_space (file_read w timestamp_file) in
    mtime ← or_raise OSError (getmtime w full_filepath);
    let cur_timestamp := pretty mtime in
    if negb (String.eqb prev_timestamp cur_timestamp) then Ok true
    else Ok (negb (cmd_retcode w ("md5sum -cs " +:+ md5sum_file) =? 0)).

Definition _kernel_modules_changed_nilrt (w : World) (kernelversion : string) : result bool :=
  _file_changed_nilrt w ("/lib/modules/" +:+ kernelversion +:+ "/modules.dep").

(** the loop over the files of the experts directory *)
Fixpoint any_file_changed_nilrt (w : World) (dir : string) (names : list string) : result bool :=
  match names with
  | [] => Ok false
  | fexpert :: names' =>
      changed ← _file_changed_nilrt w (dir +:+ "/" +:+ fexpert);
      if (changed : bool) then Ok true else any_file_changed_nilrt w dir names'
  end.

Definition _sysapi_changed_nilrt (w : World) : result bool :=
  let nisysapi_path := "/usr/local/natinst/share/nisysapi.ini" in
  changed ← (if path_exists w nisysapi_path
             then _file_changed_nilrt w nisysapi_path else Ok false);
  if (changed : bool) then Ok true
  else
    let restartcheck_state_dir := "/var/lib/salt/restartcheck_state" in
    let nisysapi_conf_d_path :=
      "/usr/lib/" +:+
      (if contains (grains_cpuarch w) "arm" then "arm-linux-gnueabi" else "x86_64-linux-gnu")
      +:+ "/nisysapi/conf.d/experts/" in
    if path_exists w nisysapi_conf_d_path then
      let rs_count_file := restartcheck_state_dir +:+ "/sysapi.conf.d.count" in
      if negb (path_exists w rs_count_file) then Ok true
      else
        fcount ← or_raise OSError (fopen w rs_count_file);
        names ← or_raise OSError (listdir w nisysapi_conf_d_path);
        let current_nb_files := Z.of_nat (length names) in
        rs_stored_nb_files ← or_raise ValueError (py_int fcount);
        if negb (current_nb_files =? rs_stored_nb_files) then Ok true
        else any_file_changed_nilrt w nisysapi_conf_d_path names
    else Ok false.

(** ** The packages to restart *)

(** an optional argument of [restartcheck]: absent, one value, or a list *)
Inductive pyarg (A : Type) :=
  | PNone
  | PScalar (a : A)
  | PList (l : list A).
Arguments PNone {A}.
Arguments PScalar {A} a.
Arguments PList {A} l.

(** [if x: if not isinstance(x, list): x = [x] else: x = default] *)
Definition arg_list {A} (truthy : A -> bool) (default : list A) (x : pyarg A) : list A :=
  match x with
  | PNone => default
  | PScalar a => if truthy a then [a] else default
  | PList [] => default
  | PList l => l
  end.

Definition str_truthy (s : string) : bool := negb (String.eqb s "").
Definition int_truthy (n : Z) : bool := negb (n =? 0).

Definition default_ignorelist : list string := ["screen"; "systemd"].

Inductive os_family := Debian | RedHat | NILinuxRT.

Definition family_of (w : World) : option os_family :=
  match grains_os_family w with
  | Some name =>
      if String.eqb name "Debian" then Some Debian
      else if String.eqb name "RedHat" then Some RedHat
      else if String.eqb name "NILinuxRT" then Some NILinuxRT
      else None
  | None => None
  end.

Definition cmd_pkg_query (f : os_family) : string :=
  match f with
  | Debian => "dpkg-query --listfiles "
  | RedHat => "repoquery -l "
  | NILinuxRT => "opkg files "
  end.

(** unbound in the NILinuxRT branch *)
Definition systemd_folder (f : os_family) : option string :=
  match f with
  | Debian => Some "/lib/systemd/system/"
  | RedHat => Some "/usr/lib/systemd/system/"
  | NILinuxRT => None
  end.

Definition systemd (f : os_family) : string :=
  match f with
  | Debian => "/bin/systemd"
  | RedHat => "/usr/bin/systemctl"
  | NILinuxRT => ""
  end.

Definition kernel_versions_of (w : World) (f : os_family) : result (list string) :=
  match f with
  | Debian => _kernel_versions_debian w
  | RedHat => _kernel_versions_redhat w
  | NILinuxRT => _kernel_versions_nilrt w
  end.

(** the loop that compares the installed kernels with [uname -a]; the
    result is [kernel_restart] *)
Fixpoint check_kernel (w : World) (f : os_family) (kernel_current : string)
    (kernel_versions : list string) : result bool :=
  match kernel_versions with
  | [] => Ok true
  | kernel :: kernel_versions' =>
      if contains kernel_current kernel then
        match f with
        | NILinuxRT =>
            modules_changed ← _kernel_modules_changed_nilrt w kernel;
            if (modules_changed : bool) then check_kernel w f kernel_current kernel_versions'
            else
              sysapi_changed ← _sysapi_changed_nilrt w;
              if (sysapi_changed : bool) then check_kernel w f kernel_current kernel_versions'
              else if reboot_required_witnessed w
                   then check_kernel w f kernel_current kernel_versions'
                   else Ok false
        | _ => Ok false
        end
      else check_kernel w f kernel_current kernel_versions'
  end.

(** a value of the [packages] dictionary *)
Record pkg_entry := {
  initscripts : list string;
  systemdservice : list string;
  processes : list string;
  process_name : string
}.

(** the [packages] dictionary, in insertion order *)
Definition pkg_lookup (name : string) (packages : list (string * pkg_entry)) : option pkg_entry :=
  snd <$> List.find (fun p => String.eqb (fst p) name) packages.

Definition pkg_alter (g : pkg_entry -> pkg_entry) (name : string)
    (packages : list (string * pkg_entry)) : list (string * pkg_entry) :=
  map (fun p => if String.eqb (fst p) name then (fst p, g (snd p)) else p) packages.

Definition add_process (program : string) (e : pkg_entry) : pkg_entry :=
  {| initscripts := initscripts e; systemdservice := systemdservice e;
     processes := processes e ++ [program]; process_name := process_name e |}.

Definition add_initscript (s : string) (e : pkg_entry) : pkg_entry :=
  {| initscripts := initscripts e ++ [s]; systemdservice := systemdservice e;
     processes := processes e; process_name := process_name e |}.

Definition add_systemdservice (s : string) (e : pkg_entry) : pkg_entry :=
  {| initscripts := initscripts e; systemdservice := systemdservice e ++ [s];
     processes := processes e; process_name := process_name e |}.

(** the variables the loop over the deleted files updates *)
Record collect_state := {
  st_excludepid : list Z;
  st_owners_cache : gmap string string;
  st_packages : list (string * pkg_entry)
}.

Definition program_line (pid : Z) (exe path : string) : string :=
  tab +:+ pretty pid +:+ " " +:+ exe +:+ " (file: " +:+ path +:+ ")".

(** one iteration of [for deleted_file in deleted_files] *)
Definition collect_step (w : World) (ignorelist blacklist : list string)
    (st : collect_state) (deleted_file : record) : collect_state :=
  let '(name, pid, path) := deleted_file in
  if bool_decide (path ∈ blacklist) || bool_decide (pid ∈ st_excludepid st) then st
  else
    match readlink w ("/proc/" +:+ pretty pid +:+ "/exe") with
    | None =>
        {| st_excludepid := st_excludepid st ++ [pid];
           st_owners_cache := st_owners_cache st; st_packages := st_packages st |}
    | Some exe =>
        let '(packagename, owners_cache) :=
          match st_owners_cache st !! exe with
          | Some packagename => (packagename, st_owners_cache st)
          | None =>
              let packagename := pkg_owner w exe in
              let packagename := if str_truthy packagename then packagename else name in
              (packagename, <[exe := packagename]> (st_owners_cache st))
          end in
        let packages :=
          if str_truthy packagename && negb (bool_decide (packagename ∈ ignorelist)) then
            let program := program_line pid exe path in
            match pkg_lookup packagename (st_packages st) with
            | None =>
                st_packages st ++
                [(packagename, {| initscripts := []; systemdservice := [];
                                  processes := [program]; process_name := name |})]
            | Some e =>
                if bool_decide (program ∈ processes e) then st_packages st
                else pkg_alter (add_process program) packagename (st_packages st)
            end
          else st_packages st in
        {| st_excludepid := st_excludepid st; st_owners_cache := owners_cache;
           st_packages := packages |}
    end.

Definition collect_packages (w : World) (ignorelist blacklist : list string)
    (excludepid : list Z) (deleted_files : list record) : list (string * pkg_entry) :=
  st_packages
    (foldl (collect_step w ignorelist blacklist)
       {| st_excludepid := excludepid; st_owners_cache := ∅; st_packages := [] |}
       deleted_files).

(** the test [path in blacklist or pid in excludepid] of the loop *)
Definition excluded (blacklist : list string) (excludepid : list Z) (r : record) : bool :=
  let '(_, pid, path) := r in
  bool_decide (path ∈ blacklist) || bool_decide (pid ∈ excludepid).

(** ** Init scripts and systemd units of a package *)

(** the scan of a unit file: [line.find('Type=oneshot') > 0] on every line *)
Definition is_oneshot (body : string) : bool :=
  foldl (fun is_oneshot line =>
      if 0 <? find line "Type=oneshot" then true else is_oneshot)
    false (readlines body).

(** one line of the package manager's list of files *)
Definition file_line_step (w : World) (f : os_family) (e : pkg_entry) (line : string)
    : result pkg_entry :=
  let pth := drop_last 1 line in
  let e := if startswith pth "/etc/init.d/" && negb (endswith pth ".sh")
           then add_initscript (drop_str 12 pth) e else e in
  if path_exists w (systemd f) then
    folder ← or_raise NameError (systemd_folder f);
    if startswith pth folder && endswith pth ".service" && (find pth ".wants" =? -1) then
      match fopen w pth with
      | None => Ok e
      | Some body =>
          let sysfold_len := String.length folder in
          if negb (is_oneshot body)
          then Ok (add_systemdservice (drop_str sysfold_len pth) e)
          else Ok e
      end
    else Ok e
  else Ok e.

Fixpoint file_lines (w : World) (f : os_family) (e : pkg_entry) (lines : list string)
    : result pkg_entry :=
  match lines with
  | [] => Ok e
  | line :: lines' => e' ← file_line_step w f e line; file_lines w f e' lines'
  end.

(** the first [for package in packages]: each package's entry is updated
    from the files the package installed *)
Fixpoint package_services (w : World) (f : os_family)
    (packages : list (string * pkg_entry)) : result (list (string * pkg_entry)) :=
  match packages with
  | [] => Ok []
  | (package, e) :: packages' =>
      let cmd := cmd_pkg_query f +:+ package in
      e' ← file_lines w f e (readlines (popen_stdout w cmd));
      rest ← package_services w f packages';
      Ok ((package, e') :: rest)
  end.

(** the second [for package in packages]: a service named as the process *)
Definition fallback_entry (w : World) (e : pkg_entry) : pkg_entry :=
  if (length (systemdservice e) =? 0)%nat && (length (initscripts e) =? 0)%nat then
    if service_available w (process_name e) then
      if path_exists w ("/etc/init.d/" +:+ process_name e)
      then add_initscript (process_name e) e
      else add_systemdservice (process_name e) e
    else e
  else e.

Definition fallback_services (w : World) (packages : list (string * pkg_entry))
    : list (string * pkg_entry) :=
  map (fun p => (fst p, fallback_entry w (snd p))) packages.

(** ** The plan *)

Record plan := {
  restartable : list string;
  nonrestartable : list string;
  restartinitcommands : list string;
  restartservicecommands : list string
}.

Definition init_command (s : string) : string := "service " +:+ s +:+ " restart".
Definition service_command (s : string) : string := "systemctl restart " +:+ s.

(** one iteration of the third [for package in packages] *)
Definition plan_step (pl : plan) (p : string * pkg_entry) : plan :=
  let '(package, e) := p in
  if (0 <? length (initscripts e))%nat then
    {| restartable := restartable pl ++ [package];
       nonrestartable := nonrestartable pl;
       restartinitcommands := restartinitcommands pl ++ map init_command (initscripts e);
       restartservicecommands := restartservicecommands pl |}
  else if (0 <? length (systemdservice e))%nat then
    {| restartable := restartable pl ++ [package];
       nonrestartable := nonrestartable pl;
       restartinitcommands := restartinitcommands pl;
       restartservicecommands :=
         restartservicecommands pl ++ map service_command (systemdservice e) |}
  else
    {| restartable := restartable pl;
       nonrestartable := nonrestartable pl ++ [package];
       restartinitcommands := restartinitcommands pl;
       restartservicecommands := restartservicecommands pl |}.

Definition restart_plan (packages : list (string * pkg_entry)) : plan :=
  foldl plan_step
    {| restartable := []; nonrestartable := [];
       restartinitcommands := []; restartservicecommands := [] |}
    packages.

(** a package with at least one init script or systemd service *)
Definition has_service (e : pkg_entry) : bool :=
  (0 <? length (initscripts e))%nat || (0 <? length (systemdservice e))%nat.

(** ** The report *)

(** what [restartcheck] returns: the dictionary of a failure, a string, or
    the list of the non-verbose mode *)
Inductive output :=
  | OFail (comment : string)
  | OStr (s : string)
  | OList (l : list string).

(** [sep.join(l)] *)
Fixpoint join (sep : string) (l : list string) : string :=
  match l with
  | [] => ""
  | [x] => x
  | x :: l' => x +:+ sep +:+ join sep l'
  end.

(** [for package in names: ret += package + ':\n'; for program in
    packages[package]['processes']: ret += program + '\n'] *)
Definition package_listing (packages : list (string * pkg_entry)) (names : list string)
    (ret : string) : string :=
  foldl (fun ret package =>
      foldl (fun ret program => ret +:+ program +:+ nl)
        (ret +:+ package +:+ ":" +:+ nl)
        (from_option processes [] (pkg_lookup package packages)))
    ret names.

Definition _format_output (kernel_restart : bool) (packages : list (string * pkg_entry))
    (verbose : bool) (restartable nonrestartable restartservicecommands
    restartinitcommands : list string) : output :=
  if negb verbose then
    let packages := restartable ++ nonrestartable in
    OList (if kernel_restart then packages ++ ["System restart required."] else packages)
  else
    let ret := "" in
    let ret := if kernel_restart then "System restart required." +:+ nl +:+ nl else ret in
    let ret :=
      if (0 <? length packages)%nat then
        ret +:+ "Found " +:+ pretty (length packages)
            +:+ " processes using old versions of upgraded files." +:+ nl
            +:+ "These are the packages:" +:+ nl
      else ret in
    let ret :=
      if (0 <? length restartable)%nat then
        let ret := ret +:+ "Of these, " +:+ pretty (length restartable)
                       +:+ " seem to contain systemd service definitions or init scripts "
                       +:+ "which can be used to restart them:" +:+ nl in
        let ret := package_listing packages restartable ret in
        let ret :=
          if (0 <? length restartservicecommands)%nat then
            ret +:+ nl +:+ nl +:+ "These are the systemd services:" +:+ nl
                +:+ join nl restartservicecommands
          else ret in
        if (0 <? length restartinitcommands)%nat then
          ret +:+ nl +:+ nl +:+ "These are the initd scripts:" +:+ nl
              +:+ join nl restartinitcommands
        else ret
      else ret in
    let ret :=
      if (0 <? length nonrestartable)%nat then
        let ret := ret +:+ nl +:+ nl +:+ "These processes " +:+ pretty (length nonrestartable)
                       +:+ " do not seem to have an associated init script "
                       +:+ "to restart them:" +:+ nl in
        package_listing packages nonrestartable ret
      else ret in
    OStr ret.

(** ** The entry point *)

Definition no_restart_message : string := "No packages seem to need to be restarted.".

(** [restartcheck] from the loop over the deleted files on *)
Definition restartcheck_packages (w : World) (f : os_family) (kernel_restart : bool)
    (ignorelist blacklist : list string) (excludepid : list Z) (verbose : bool)
    (deleted_files : list record) : result output :=
  let packages := collect_packages w ignorelist blacklist excludepid deleted_files in
  if (length packages =? 0)%nat && negb kernel_restart then Ok (OStr no_restart_message)
  else
    packages ← package_services w f packages;
    let packages := fallback_services w packages in
    let pl := restart_plan packages in
    Ok (_format_output kernel_restart packages verbose (restartable pl) (nonrestartable pl)
          (restartservicecommands pl) (restartinitcommands pl)).

Definition restartcheck (w : World) (ignorelist blacklist : pyarg string)
    (excludepid : pyarg Z) (verbose : bool) : result output :=
  match family_of w with
  | None =>
      Ok (OFail "Only available on Debian, Red Hat and NI Linux Real-Time based systems.")
  | Some f =>
      kernel_versions ← kernel_versions_of w f;
      let kernel_current := cmd_run w "uname -a" in
      kernel_restart ← check_kernel w f kernel_current kernel_versions;
      let ignorelist := arg_list str_truthy default_ignorelist ignorelist in
      let blacklist := arg_list str_truthy [] blacklist in
      let excludepid := arg_list int_truthy [] excludepid in
      match _deleted_files w with
      | None => Ok (OFail "Could not get list of processes. (Do you have root access?)")
      | Some deleted_files =>
          restartcheck_packages w f kernel_restart ignorelist blacklist excludepid verbose
            deleted_files
      end
  end.

(** ** Hosts to run the module on

    A host lists its processes, files, directories, symbolic links, the
    outputs of the commands it answers, the owners of its executables and
    its services; [world_of] is the world the module sees on it. *)

Module Host.

Record host := {
  procs : list (option (string * Z));
  files : list (string * string);
  dirs : list (string * list string);
  links : list (string * string);
  cmds : list (string * string);
  owners : list (string * string);
  services : list string
}.

Definition assoc {V} (l : list (string * V)) (key : string) : option V :=
  snd <$> List.find (fun p => String.eqb (fst p) key) l.

Definition world_of (family os : string) (h : host) : World := {|
  grains_os_family := Some family;
  grains_os := os;
  grains_cpuarch := "x86_64";
  process_iter := procs h;
  fopen := assoc (files h);
  listdir := assoc (dirs h);
  readlink := assoc (links h);
  isfile := fun p => bool_decide (is_Some (assoc (files h) p));
  isdir := fun p => bool_decide (is_Some (assoc (dirs h) p));
  path_exists := fun p =>
    bool_decide (is_Some (assoc (files h) p)) || bool_decide (is_Some (assoc (dirs h) p));
  getmtime := fun _ => None;
  os_walk := fun top =>
    match assoc (dirs h) top with
    | Some names => [(top, names)]
    | None => []
    end;
  cmd_run := fun c => default "" (assoc (cmds h) c);
  cmd_shell := fun c => default "" (assoc (cmds h) c);
  cmd_retcode := fun _ => 0;
  file_read := fun p => default "" (assoc (files h) p);
  popen_stdout := fun c => default "" (assoc (cmds h) c);
  pkg_owner := fun p => default "" (assoc (owners h) p);
  service_available := fun n => bool_decide (n ∈ services h);
  reboot_required_witnessed := false
|}.

(** a Debian host whose running kernel is the installed one *)
Definition debian_cmds : list (string * string) :=
  [ ("dpkg --get-selections linux-image-*",
     "linux-image-5.10.0-8-amd64" +:+ tab +:+ tab +:+ tab +:+ tab +:+ "install" +:+ nl +:+
     "linux-image-amd64" +:+ tab +:+ tab +:+ tab +:+ tab +:+ "install" +:+ nl);
    ("apt-cache policy linux-image-5.10.0-8-amd64",
     "linux-image-5.10.0-8-amd64:" +:+ nl +:+
     "  Installed: 5.10.46-4" +:+ nl +:+
     "  Candidate: 5.10.46-4" +:+ nl);
    ("uname -a",
     "Linux host 5.10.0-8-amd64 #1 SMP Debian 5.10.46-4 (2021-08-03) x86_64 GNU/Linux") ].

(** a line of [/proc/PID/maps] for a mapping of [path] *)
Definition mapline (perms path : string) : string :=
  "7f1c8a000000-7f1c8a021000 " +:+ perms +:+ " 00000000 08:01 1835041    " +:+ path +:+ nl.

(** no process holds a deleted file *)
Definition idle : host := {|
  procs := [Some ("nginx", 42)];
  files := [("/proc/42/maps", mapline "r-xp" "/usr/sbin/nginx")];
  dirs := [("/proc/42/fd/", [])];
  links := [("/proc/42/exe", "/usr/sbin/nginx")];
  cmds := debian_cmds;
  owners := [("/usr/sbin/nginx", "nginx")];
  services := []
|}.

(** [nginx] maps a deleted library twice and also holds, through a file
    descriptor, a file whose name is that of the record of the mapping *)
Definition twice : host := {|
  procs := [Some ("nginx", 42)];
  files := [("/proc/42/maps",
             mapline "r-xp" "/usr/lib/libfoo.so.1 (deleted) (deleted)" +:+
             mapline "rw-p" "/usr/lib/libfoo.so.1 (deleted) (deleted)");
            ("/usr/lib/libfoo.so.1 (deleted)", "")];
  dirs := [("/proc/42/fd/", ["3"])];
  links := [("/proc/42/fd/3", "/usr/lib/libfoo.so.1 (deleted)");
            ("/proc/42/exe", "/usr/sbin/nginx")];
  cmds := debian_cmds;
  owners := [("/usr/sbin/nginx", "nginx")];
  services := []
|}.

(** process 7 is listed but its [maps] file cannot be opened any more;
    process 42 maps a deleted library *)
Definition vanishing : host := {|
  procs := [Some ("sleep", 7); Some ("nginx", 42)];
  files := [("/proc/42/maps", mapline "r-xp" "/usr/lib/libfoo.so.1 (deleted)")];
  dirs := [("/proc/42/fd/", [])];
  links := [("/proc/42/exe", "/usr/sbin/nginx")];
  cmds := debian_cmds;
  owners := [("/usr/sbin/nginx", "nginx")];
  services := []
|}.

(** a host on which process 42 runs [exe] under the name [name] and maps
    a deleted library; [pkgfiles] is what the package manager lists for the
    package [name], [units] are the files of the host besides [maps] *)
Definition stale (name exe pkgfiles : string) (units : list (string * string)) : host := {|
  procs := [Some (name, 42)];
  files := ("/proc/42/maps", mapline "r-xp" "/usr/lib/libfoo.so.1 (deleted)") :: units;
  dirs := [("/proc/42/fd/", [])];
  links := [("/proc/42/exe", exe)];
  cmds := ("dpkg-query --listfiles " +:+ name, pkgfiles) :: debian_cmds;
  owners := [(exe, name)];
  services := []
|}.

(** the package [nginx] installs an init script and a systemd unit *)
Definition both : host :=
  stale "nginx" "/usr/sbin/nginx"
    ("/etc/init.d/nginx" +:+ nl +:+ "/lib/systemd/system/nginx.service" +:+ nl)
    [("/bin/systemd", "");
     ("/lib/systemd/system/nginx.service",
      "[Service]" +:+ nl +:+ "Type=forking" +:+ nl +:+ "ExecStart=/usr/sbin/nginx" +:+ nl)].

(** the only unit of the package [fstrim] is a oneshot unit *)
Definition oneshot_unit : string :=
  "[Unit]" +:+ nl +:+ "Description=Discard unused blocks" +:+ nl +:+
  "[Service]" +:+ nl +:+ "Type=oneshot" +:+ nl +:+ "ExecStart=/sbin/fstrim -av" +:+ nl.

Definition oneshot : host :=
  stale "fstrim" "/sbin/fstrim"
    ("/sbin/fstrim" +:+ nl +:+ "/lib/systemd/system/fstrim.service" +:+ nl)
    [("/bin/systemd", ""); ("/lib/systemd/system/fstrim.service", oneshot_unit)].

(** [screen] holds a deleted library *)
Definition screen : host := stale "screen" "/usr/bin/screen" "/usr/bin/screen" [].

End Host.

(** ** More hosts *)

Module MoreHosts.

(** a host on which no command prints anything *)
Definition bare : Host.host := {|
  Host.procs := [];
  Host.files := [];
  Host.dirs := [];
  Host.links := [];
  Host.cmds := [];
  Host.owners := [];
  Host.services := []
|}.

(** an NI Linux Real-Time system with a package-managed kernel whose
    snapshot of [modules.dep] is up to date *)
Definition nilrt : World := {|
  grains_os_family := Some "NILinuxRT";
  grains_os := "NILinuxRT";
  grains_cpuarch := "x86_64";
  process_iter := [];
  fopen := fun _ => None;
  listdir := fun _ => None;
  readlink := fun p =>
    if String.eqb p "/boot/bzImage" then Some "/boot/runmode/bzImage-4.14.87-rt49" else None;
  isfile := fun _ => false;
  isdir := fun _ => false;
  path_exists := fun p =>
    String.eqb p "/var/lib/salt/restartcheck_state/modules.dep.timestamp"
    || String.eqb p "/var/lib/salt/restartcheck_state/modules.dep.md5sum";
  getmtime := fun _ => Some 1546300800;
  os_walk := fun _ => [];
  cmd_run := fun c =>
    if String.eqb c "uname -a"
    then "Linux NI-cRIO 4.14.87-rt49 #1 SMP PREEMPT RT x86_64 GNU/Linux" else "";
  cmd_shell := fun _ => "";
  cmd_retcode := fun _ => 0;
  file_read := fun _ => "1546300800" +:+ nl;
  popen_stdout := fun _ => "";
  pkg_owner := fun _ => "";
  service_available := fun _ => false;
  reboot_required_witnessed := false
|}.

(** the selections of a Debian host; [apt-cache policy] reports a
    different installed version for each of them *)
Definition kernel_policy (package version : string) : string * string :=
  ("apt-cache policy " +:+ package,
   package +:+ ":" +:+ nl +:+ "  Installed: " +:+ version +:+ nl
   +:+ "  Candidate: " +:+ version +:+ nl).

Definition selection (package : string) : string :=
  package +:+ tab +:+ tab +:+ tab +:+ tab +:+ "install" +:+ nl.

Definition kernel_host (selections : string) : Host.host := {|
  Host.procs := [];
  Host.files := [];
  Host.dirs := [];
  Host.links := [];
  Host.cmds :=
    [ ("dpkg --get-selections linux-image-*", selections);
      kernel_policy "linux-image-4.19.0-17-amd64" "4.19.194-3";
      kernel_policy "linux-image-5.10.0-8-amd64" "5.10.46-4";
      kernel_policy "linux-image-amd64" "5.10.46-5";
      ("uname -a",
       "Linux host 5.10.0-8-amd64 #1 SMP Debian 5.10.46-4 (2021-08-03) x86_64 GNU/Linux") ];
  Host.owners := [];
  Host.services := []
|}.

(** three kernel packages are selected *)
Definition three_kernels : Host.host :=
  kernel_host (selection "linux-image-4.19.0-17-amd64"
               +:+ selection "linux-image-5.10.0-8-amd64"
               +:+ selection "linux-image-amd64").

(** one kernel package is selected *)
Definition one_kernel : Host.host := kernel_host (selection "linux-image-4.19.0-17-amd64").

(** an NI Linux Real-Time host on which [opkg files nginx] lists an init
    script, a shell helper and the executable *)
Definition nilrt_package : Host.host := {|
  Host.procs := [Some ("nginx", 42)];
  Host.files := [("/proc/42/maps", Host.mapline "r-xp" "/usr/lib/libfoo.so.1 (deleted)")];
  Host.dirs := [("/proc/42/fd/", [])];
  Host.links := [("/proc/42/exe", "/usr/sbin/nginx")];
  Host.cmds :=
    [("opkg files nginx",
      "Package nginx (1.12.2-r0) is installed on root and has the following files:" +:+ nl
      +:+ "/etc/init.d/nginx" +:+ nl
      +:+ "/etc/init.d/functions.sh" +:+ nl
      +:+ "/usr/sbin/nginx" +:+ nl)];
  Host.owners := [("/usr/sbin/nginx", "nginx")];
  Host.services := []
|}.

End MoreHosts.

(** * salt.log.handlers

    The handlers of [salt/log/handlers/__init__.py].  A handler is a
    record of its fields; what a method does to the outside (a call of
    another handler, a line on [sys.stderr], the default error handling) is
    returned beside the new state. *)

Module LogHandlers.

(** the double quote *)
Definition dq : string := String "034"%char "".

(** a [logging.LogRecord]: its level and the fields the handlers touch *)
Record log_record := {
  levelno : Z;
  message : option string;
  msg : string;
  args : option (list string);
  exc_info : option string;
  exc_text : option string
}.

(** [logging.WARNING] *)
Definition WARNING : Z := 30.

(** ** TemporaryLoggingHandler *)


Record TemporaryLoggingHandler := {
  level : Z;
  maxlen : option nat;
  messages : list log_record
}.

(** [__init__(level, max_queue_size)]; [None] is the [ValueError] of a
    negative [maxlen] *)
Definition init (level : Z) (max_queue_size : option Z) : option TemporaryLoggingHandler :=
  match max_queue_size with
  | None => Some {| level := level; maxlen := None; messages := [] |}
  | Some n =>
      if n <? 0 then None
      else Some {| level := level; maxlen := Some (Z.to_nat n); messages := [] |}
  end.


(** [for handler in handlers]: [handlers] are the levels of the handlers,
    [i] is the position of the first of them; the result lists the calls
    [handler.handle(record)] as pairs of the position of the handler and
    the record *)
Fixpoint dispatch (i : nat) (handlers : list Z) (record : log_record)
    : list (nat * log_record) :=
  match handlers with
  | [] => []
  | handler_level :: handlers' =>
      if levelno record <? handler_level then dispatch (S i) handlers' record
      else (i, record) :: dispatch (S i) handlers' record
  end.

(** [while self.__messages: record = self.__messages.popleft(); ...] *)
Fixpoint drain (handlers : list Z) (messages : list log_record) : list (nat * log_record) :=
  match messages with
  | [] => []
  | record :: messages' => dispatch 0 handlers record ++ drain handlers messages'
  end.

(** [sync_with_handlers(handlers)]: the handler afterwards and the calls made *)
Definition sync_with_handlers (h : TemporaryLoggingHandler) (handlers : list Z)
    : TemporaryLoggingHandler * list (nat * log_record) :=
  match handlers with
  | [] => (h, [])
  | _ :: _ =>
      ({| level := level h; maxlen := maxlen h; messages := [] |},
       drain handlers (messages h))
  end.

(** ** The error handlers *)

(** what [handleError] does: a line on [sys.stderr], or the call of the
    [handleError] of the parent class *)
Inductive action :=
  | Write (s : string)
  | SuperHandleError.

(** the actions of a call, or the [AttributeError] that escapes it *)
Inductive outcome :=
  | Done (actions : list action)
  | AttributeError.

(** [sys.version_info >= (a, b, c)] *)
Definition version_ge (v : Z * Z * Z) (a b c : Z) : bool :=
  let '(major, minor, micro) := v in
  (a <? major) || (major =? a) && ((b <? minor) || (minor =? b) && (c <=? micro)).

Definition syslog_warning : string :=
  "[WARNING ] The log_file does not exist. Logging not setup correctly or syslog service not started." +:+ nl.

(** [SysLogHandler.handleError]: [stderr] tells whether [sys.stderr] is
    set, [exc_type] is the name of the type of the exception being
    handled, [None] when there is none *)
Definition syslog_handleError (stderr : bool) (version_info : Z * Z * Z)
    (exc_type : option string) : outcome :=
  if stderr && version_ge version_info 3 5 4 then
    match exc_type with
    | None => AttributeError
    | Some name =>
        if contains "FileNotFoundError" name then Done [Write syslog_warning]
        else Done [SuperHandleError]
    end
  else Done [SuperHandleError].

(** the attribute [winerror] of the exception: missing, [None], or a number *)
Inductive winerror_attr :=
  | NoAttr
  | AttrNone
  | AttrInt (n : Z).

Definition rotate_warning (baseFilename : string) : string :=
  "[WARNING ] Unable to rotate the log file " +:+ dq +:+ baseFilename +:+ dq +:+ " "
  +:+ "because it is in use" +:+ nl.

(** [RotatingFileHandler.handleError] *)
Definition rotating_handleError (platform : string) (raiseExceptions stderr : bool)
    (exc_type : option string) (winerror : winerror_attr)
    (level : Z) (baseFilename : string) : outcome :=
  if startswith platform "win" && raiseExceptions && stderr then
    match exc_type with
    | None => AttributeError
    | Some name =>
        if String.eqb name "PermissionError" || String.eqb name "OSError" then
          match winerror with
          | NoAttr => AttributeError
          | AttrInt 32 =>
              if level <=? WARNING then Done [Write (rotate_warning baseFilename)]
              else Done []
          | _ => Done [SuperHandleError]
          end
        else Done [SuperHandleError]
    end
  else Done [SuperHandleError].

(** ** QueueHandler *)

(** a [queue.Queue]; a [maxsize] of zero or less is no bound *)
Record bounded_queue := {
  maxsize : Z;
  items : list log_record
}.

(** [put_nowait]; [None] is [queue.Full] *)
Definition put_nowait (q : bounded_queue) (record : log_record) : option bounded_queue :=
  if (0 <? maxsize q) && (maxsize q <=? Z.of_nat (length (items q))) then None
  else Some {| maxsize := maxsize q; items := items q ++ [record] |}.

Section Enqueue.
(** [str(record)] *)
Context (record_str : log_record -> string).

Definition full_warning (record : log_record) : string :=
  "[WARNING ] Message queue is full, unable to write " +:+ dq +:+ record_str record +:+ dq
  +:+ " to log".

(** [QueueHandler.enqueue]: the queue and the lines written to
    [sys.stderr] *)
Definition enqueue (st : bounded_queue * list string) (record : log_record)
    : bounded_queue * list string :=
  let '(q, stderr) := st in
  match put_nowait q record with
  | Some q' => (q', stderr)
  | None => (q, stderr ++ [full_warning record])
  end.

End Enqueue.

(** the calls that the handler at position [i] received *)
Definition received (i : nat) (calls : list (nat * log_record)) : list log_record :=
  omap (fun c => if (fst c =? i)%nat then Some (snd c) else None) calls.

End LogHandlers.

(** ** Vocabulary of the properties *)

(** [t] is a suffix of [s] *)
Definition is_suffix (t s : string) : Prop := exists pre, s = pre +:+ t.


(** what the loop over the deleted files keeps true of [packages] *)
Definition keys_ok (ignorelist : list string) (packages : list (string * pkg_entry)) : Prop :=
  NoDup packages.*1 /\ Forall (fun name => name ∉ ignorelist) packages.*1.

(** the commands that one package adds to the plan *)
Definition init_commands_of (p : string * pkg_entry) : list string :=
  map init_command (initscripts (snd p)).

Definition service_commands_of (p : string * pkg_entry) : list string :=
  if (0 <? length (initscripts (snd p)))%nat then []
  else map service_command (systemdservice (snd p)).

(** where a record of the scan of [w] comes from: it names a listed
    process, and its path is either the path of a line of the [maps] file of
    that process that the classifier accepts, without its last ten
    characters, or a file name that the classifier accepts among those an
    entry of the [fd] directory of that process stands for *)
Definition reported_by (w : World) (r : record) : Prop :=
  let '(name, pid, path) := r in
  Some (name, pid) ∈ process_iter w /\
  ((exists maps line p,
      fopen w ("/proc/" +:+ pretty pid +:+ "/maps") = Some maps /\
      line ∈ readlines maps /\ mapline_match line = Some p /\
      _valid_deleted_file p = true /\ path = drop_last 10 p)
   \/ (exists links link target,
         listdir w ("/proc/" +:+ pretty pid +:+ "/fd/") = Some links /\
         link ∈ links /\
         readlink w (("/proc/" +:+ pretty pid +:+ "/fd/") +:+ link) = Some target /\
         path ∈ fd_filenames w target /\ _valid_deleted_file path = true)).

(** the link to the executable of a process *)
Definition exe_of (w : World) (pid : Z) : option string :=
  readlink w ("/proc/" +:+ pretty pid +:+ "/exe").

(** [package] is the name under which the executable [exe] is filed: its
    owner, or, when it has no owner, the name of a process of
    [deleted_files] that runs it *)
Definition filed_as (w : World) (deleted_files : list record) (exe package : string) : Prop :=
  exists name pid path,
    (name, pid, path) ∈ deleted_files /\ exe_of w pid = Some exe /\
    package = (if str_truthy (pkg_owner w exe) then pkg_owner w exe else name).

(** [program] is the line of a record of [deleted_files] that is neither
    blacklisted nor excluded and whose executable is filed as [package] *)
Definition line_from (w : World) (blacklist : list string) (excludepid : list Z)
    (deleted_files : list record) (package program : string) : Prop :=
  exists name pid path exe,
    (name, pid, path) ∈ deleted_files /\ (path ∉ blacklist) /\ (pid ∉ excludepid) /\
    exe_of w pid = Some exe /\ filed_as w deleted_files exe package /\
    program = program_line pid exe path.

(** the shape of an entry of [packages] after the loop over the deleted
    files *)
Definition entry_shape (deleted_files : list record) (p : string * pkg_entry) : Prop :=
  let '(package, e) := p in
  package <> "" /\
  (initscripts e = []) /\ (systemdservice e = []) /\
  (processes e <> []) /\ NoDup (processes e) /\
  (exists pid path, (process_name e, pid, path) ∈ deleted_files).

Definition entry_ok (w : World) (blacklist : list string) (excludepid : list Z)
    (deleted_files : list record) (p : string * pkg_entry) : Prop :=
  entry_shape deleted_files p /\
  Forall (line_from w blacklist excludepid deleted_files (fst p)) (processes (snd p)).

(** the invariant of the loop over the deleted files *)
Definition collect_inv (w : World) (ignorelist blacklist : list string)
    (excludepid : list Z) (deleted_files : list record) (st : collect_state) : Prop :=
  (forall pid, pid ∈ excludepid -> pid ∈ st_excludepid st) /\
  (forall exe package, st_owners_cache st !! exe = Some package ->
     filed_as w deleted_files exe package) /\
  keys_ok ignorelist (st_packages st) /\
  Forall (entry_ok w blacklist excludepid deleted_files) (st_packages st).

(** the line [program] of the executable [exe] is accounted for in [st]:
    the executable is filed, and its line is in the entry of its package
    unless the package has the empty name or is ignored *)
Definition line_kept (ignorelist : list string) (exe program : string)
    (st : collect_state) : Prop :=
  exists package, st_owners_cache st !! exe = Some package /\
    (package = "" \/ package ∈ ignorelist \/
     exists e, (package, e) ∈ st_packages st /\ program ∈ processes e).

(** both state files of [modules.dep] exist *)
Definition modules_dep_snapshot (w : World) : bool :=
  path_exists w "/var/lib/salt/restartcheck_state/modules.dep.timestamp"
  && path_exists w "/var/lib/salt/restartcheck_state/modules.dep.md5sum".

(** [e'] is [e] with init scripts and systemd services added at the end *)
Definition extends (e e' : pkg_entry) : Prop :=
  processes e' = processes e /\ process_name e' = process_name e /\
  initscripts e `prefix_of` initscripts e' /\
  systemdservice e `prefix_of` systemdservice e'.

(** [line], a line of the list of files of a package, makes the init
    script [s] *)
Definition init_script_of_line (line s : string) : Prop :=
  drop_last 1 line = "/etc/init.d/" +:+ s /\ endswith s ".sh" = false.

(** [line] makes the systemd unit [s]: the service manager is there, the
    line is the path of a [.service] file of the unit directory, outside a
    [.wants] directory, that can be read and is not taken for a oneshot
    unit *)
Definition unit_of_line (w : World) (f : os_family) (line s : string) : Prop :=
  path_exists w (systemd f) = true /\
  exists folder body,
    systemd_folder f = Some folder /\ drop_last 1 line = folder +:+ s /\
    endswith (folder +:+ s) ".service" = true /\ find (folder +:+ s) ".wants" = -1 /\
    fopen w (folder +:+ s) = Some body /\ is_oneshot body = false.

(** the init scripts and units of [e'] are those of [e] and some made by
    the lines [lines] *)
Definition made_by (w : World) (f : os_family) (lines : list string) (e e' : pkg_entry) : Prop :=
  extends e e' /\
  (forall s, s ∈ initscripts e' ->
     s ∈ initscripts e \/ exists line, line ∈ lines /\ init_script_of_line line s) /\
  (forall s, s ∈ systemdservice e' ->
     s ∈ systemdservice e \/ exists line, line ∈ lines /\ unit_of_line w f line s).

(** the lines that the package manager prints for [package] *)
Definition listed_files (w : World) (f : os_family) (package : string) : list string :=
  readlines (popen_stdout w (cmd_pkg_query f +:+ package)).

(** [_kernel_versions_debian] from the selected line [kernel] on: the
    names of the version that [apt-cache policy] reports as installed for
    the package of that line *)
Definition debian_versions_of (w : World) (kernel : string) : result (list string) :=
  let kernel := rstrip kernel (tab +:+ tab +:+ "install") in
  let kernel_get_version := cmd_run w ("apt-cache policy " +:+ kernel) in
  let kernel_versions :=
    match List.find (fun line => startswith line "  Installed: ")
            (splitlines kernel_get_version) with
    | Some line => [strip line "  Installed: "]
    | None => []
    end in
  if String.eqb (grains_os w) "Ubuntu" then
    kernel_versions_0 ← py_index kernel_versions 0;
    match rsplit1 "." kernel_versions_0 with
    | inr (kernel_v_0, kernel_v_1) =>
        let kernel_ubuntu_generic := kernel_v_0 +:+ "-generic #" +:+ kernel_v_1 in
        let kernel_ubuntu_lowlatency := kernel_v_0 +:+ "-lowlatency #" +:+ kernel_v_1 in
        Ok (kernel_versions ++ [kernel_ubuntu_generic; kernel_ubuntu_lowlatency])
    | inl _ => Raise IndexError
    end
  else Ok kernel_versions.

(** * Properties *)

(** ** The definitions on examples *)

Example scenario_A : _valid_deleted_file "/usr/lib/libfoo.so.1 (deleted)" = true.
Proof. reflexivity. Qed.
Example scenario_B : _valid_deleted_file "/var/log/app.log (deleted)" = false.
Proof. reflexivity. Qed.
Example inode_ex : _valid_deleted_file "/usr/lib/x (path inode=1234)" = true.
Proof. reflexivity. Qed.
Example inode_ex2 : _valid_deleted_file "/usr/lib/x (path inode=)" = false.
Proof. reflexivity. Qed.
Example mapline_deleted :
  mapline_match ("7f1c8a000000-7f1c8a021000 r-xp 00000000 08:01 1835041    /usr/lib/libfoo.so.1 (deleted)" +:+ nl)
  = Some "/usr/lib/libfoo.so.1 (deleted)".
Proof. reflexivity. Qed.
Example mapline_anonymous :
  mapline_match ("7f1c8a000000-7f1c8a021000 rw-p 00000000 00:00 0 " +:+ nl) = Some " ".
Proof. reflexivity. Qed.
Example mapline_backtrack :
  mapline_match ("7f1c8a000000-7f1c8a021000 rw-p 00000000 00:00 1234" +:+ nl) = Some "4".
Proof. reflexivity. Qed.
Example mapline_heap :
  mapline_match ("55d0e4b0c000-55d0e4b2d000 rw-p 00000000 00:00 0                          [heap]" +:+ nl)
  = Some "[heap]".
Proof. reflexivity. Qed.
Example select_kernel_empty : debian_select_kernel [] = Raise IndexError.
Proof. reflexivity. Qed.
Example select_kernel_debian :
  debian_select_kernel (debian_kernels (Host.world_of "Debian" "Debian" Host.idle))
  = Ok ("linux-image-5.10.0-8-amd64" +:+ tab +:+ tab +:+ tab +:+ tab +:+ "install").
Proof. reflexivity. Qed.
Example kernel_versions_debian_idle :
  _kernel_versions_debian (Host.world_of "Debian" "Debian" Host.idle) = Ok ["5.10.46-4"].
Proof. reflexivity. Qed.
Example kernel_versions_ubuntu_idle :
  _kernel_versions_debian (Host.world_of "Debian" "Ubuntu" Host.idle)
  = Ok ["5.10.46-4"; "5.10-generic #46-4"; "5.10-lowlatency #46-4"].
Proof. reflexivity. Qed.
Example splitlines_crlf :
  splitlines ("a" +:+ String CR nl +:+ nl +:+ "b") = ["a"; ""; "b"].
Proof. reflexivity. Qed.
Example readlines_last : readlines ("a" +:+ nl +:+ "b") = ["a" +:+ nl; "b"].
Proof. reflexivity. Qed.
Example scan_vanishing_fails :
  _deleted_files (Host.world_of "Debian" "Debian" Host.vanishing) = None.
Proof. reflexivity. Qed.
Example deleted_files_both :
  _deleted_files (Host.world_of "Debian" "Debian" Host.both)
  = Some [("nginx", 42, "/usr/lib/libfoo.so.1")].
Proof. reflexivity. Qed.
Example deleted_files_oneshot :
  _deleted_files (Host.world_of "Debian" "Debian" Host.oneshot)
  = Some [("fstrim", 42, "/usr/lib/libfoo.so.1")].
Proof. reflexivity. Qed.
Example restartcheck_both :
  restartcheck (Host.world_of "Debian" "Debian" Host.both) PNone PNone PNone false
  = Ok (OList ["nginx"]).
Proof. reflexivity. Qed.


(** ** Strings *)

#[local] Arguments String.append !_ _ / : simpl nomatch.

Section StringFacts.

Lemma is_suffix_refl s : is_suffix s s.
Proof. by exists "". Qed.

Lemma is_suffix_cons c t s : is_suffix t s -> is_suffix t (String c s).
Proof. intros [pre ->]. by exists (String c pre). Qed.

Lemma is_suffix_trans a b c : is_suffix a b -> is_suffix b c -> is_suffix a c.
Proof.
  intros [p ->] [q ->]. exists (q +:+ p).
  induction q as [|x q IH]; simpl; [done | by f_equal].
Qed.

Lemma append_length a b : String.length (a +:+ b) = (String.length a + String.length b)%nat.
Proof. induction a as [|x a IH]; simpl; [done | by rewrite IH]. Qed.

(** Two suffixes of one string: the shorter is a suffix of the longer. *)
Lemma is_suffix_comparable a b s :
  is_suffix a s -> is_suffix b s -> (String.length a <= String.length b)%nat ->
  is_suffix a b.
Proof.
  intros [p Hp] [q Hq] Hlen. subst s.
  revert p Hq. induction q as [|y q IH]; intros p Hq.
  - simpl in Hq. subst b. by exists p.
  - destruct p as [|x p].
    + simpl in Hq. subst a. simpl in Hlen. rewrite append_length in Hlen. lia.
    + simpl in Hq. injection Hq as _ Hq. by apply (IH p).
Qed.

Lemma startswith_spec s p : startswith s p = true <-> exists rest, s = p +:+ rest.
Proof.
  revert s. induction p as [|a p IH]; intros s; simpl.
  - split; [by exists s | done].
  - destruct s as [|b s]; simpl.
    + split; [done | by intros [? ?]].
    + rewrite andb_true_iff, Ascii.eqb_eq, IH. split.
      * intros [-> [rest ->]]. by exists rest.
      * intros [rest [= -> ->]]. split; [done | by exists rest].
Qed.

Lemma startswith_drop s p :
  startswith s p = true -> s = p +:+ drop_str (String.length p) s.
Proof.
  revert s. induction p as [|a p IH]; intros s; simpl; [done |].
  destruct s as [|b s]; simpl; [done |].
  rewrite andb_true_iff, Ascii.eqb_eq. intros [-> H]. f_equal. by apply IH.
Qed.

Lemma endswith_spec s suf : endswith s suf = true <-> is_suffix suf s.
Proof.
  induction s as [|c s IH]; cbn [endswith].
  - rewrite orb_false_r, String.eqb_eq. split.
    + intros <-. apply is_suffix_refl.
    + intros [pre H]. destruct pre; simpl in H; [done | discriminate].
  - rewrite orb_true_iff, String.eqb_eq, IH. split.
    + intros [<- | H]; [apply is_suffix_refl | by apply is_suffix_cons].
    + intros [pre H]. destruct pre as [|x pre]; simpl in H.
      * by left.
      * right. injection H as _ ->. by exists pre.
Qed.

End StringFacts.

(** ** The matchers only move forward *)

Section MatcherFacts.
Context {R : Type}.
Implicit Types (k : @Re.cont R) (s : string) (r : R).

Lemma lit_Some l k s r :
  Re.lit l k s = Some r -> exists t, s = l +:+ t /\ k t = Some r.
Proof.
  unfold Re.lit. destruct (startswith s l) eqn:E; [|done].
  intros H. exists (drop_str (String.length l) s). split; [|done].
  by apply startswith_drop.
Qed.

Lemma cls_Some p k s r :
  Re.cls p k s = Some r -> exists c t, s = String c t /\ p c = true /\ k t = Some r.
Proof.
  destruct s as [|c t]; simpl; [done |].
  destruct (p c) eqn:E; [|done]. intros H. by exists c, t.
Qed.

Lemma star_Some p k s r :
  Re.star p k s = Some r -> exists t, is_suffix t s /\ k t = Some r.
Proof.
  induction s as [|c s IH]; simpl.
  - intros H. exists "". split; [apply is_suffix_refl | done].
  - destruct (p c).
    + destruct (Re.star p k s) as [r'|] eqn:E.
      * intros [= ->]. destruct (IH eq_refl) as (t & Ht & Hk).
        exists t. split; [by apply is_suffix_cons | done].
      * intros H. exists (String c s). split; [apply is_suffix_refl | done].
    + intros H. exists (String c s). split; [apply is_suffix_refl | done].
Qed.

Lemma plus_Some p k s r :
  Re.plus p k s = Some r -> exists t, is_suffix t s /\ k t = Some r.
Proof.
  intros H. apply cls_Some in H as (c & t & -> & _ & H).
  apply star_Some in H as (t' & Ht' & Hk).
  exists t'. split; [by apply is_suffix_cons | done].
Qed.

Lemma eol_Some k s r :
  Re.eol k s = Some r -> (s = "" \/ s = nl) /\ k s = Some r.
Proof.
  unfold Re.eol. destruct (String.eqb s "" || String.eqb s nl) eqn:E; [|done].
  apply orb_true_iff in E. rewrite !String.eqb_eq in E. done.
Qed.

Lemma search_Some (m : @Re.cont R) s r :
  Re.search m s = Some r -> exists t, is_suffix t s /\ m t = Some r.
Proof.
  induction s as [|c s IH]; simpl.
  - destruct (m "") eqn:E; [|done]. intros [= ->]. exists "". split; [apply is_suffix_refl | done].
  - destruct (m (String c s)) eqn:E.
    + intros [= ->]. exists (String c s). split; [apply is_suffix_refl | done].
    + intros H. destruct (IH H) as (t & Ht & Hm).
      exists t. split; [by apply is_suffix_cons | done].
Qed.

End MatcherFacts.

(** ** The path classifier *)

Section Classifier.

(** A path that the inode pattern matches ends in a closing parenthesis,
    possibly followed by a line feed. *)
Lemma inode_search_suffix path :
  inode_search path = true -> is_suffix ")" path \/ is_suffix (")" +:+ nl) path.
Proof.
  unfold inode_search. destruct (Re.search inode_re path) as [u|] eqn:E; [|done].
  intros _. apply search_Some in E as (t & Ht & E). unfold inode_re in E.
  apply lit_Some in E as (t1 & -> & E).
  apply plus_Some in E as (t2 & Ht2 & E).
  apply lit_Some in E as (t3 & -> & E).
  apply eol_Some in E as [[-> | ->] _].
  - left. eapply is_suffix_trans; [exact Ht2 |].
    eapply is_suffix_trans; [|exact Ht]. by exists "(path inode=".
  - right. eapply is_suffix_trans; [exact Ht2 |].
    eapply is_suffix_trans; [|exact Ht]. by exists "(path inode=".
Qed.

(** Neither inclusion rule holds of a path that the one suffix exclusion
    rule excludes. *)
Lemma marked_not_icon_cache path :
  endswith path " (deleted)" = true \/ inode_search path = true ->
  endswith path "icon-theme.cache" = false.
Proof.
  intros H. destruct (endswith path "icon-theme.cache") eqn:E; [|done].
  apply endswith_spec in E.
  assert (exists t, is_suffix t path /\ (String.length t <= 16)%nat
                    /\ endswith "icon-theme.cache" t = false) as (t & Ht & Hlen & Hno).
  { destruct H as [H | H].
    - apply endswith_spec in H. exists " (deleted)".
      split; [done | split; [simpl; lia | reflexivity]].
    - apply inode_search_suffix in H as [H | H];
        [exists ")" | exists (")" +:+ nl)];
        (split; [done | split; [simpl; lia | reflexivity]]). }
  assert (is_suffix t "icon-theme.cache") as Hs
    by (eapply is_suffix_comparable; [exact Ht | exact E | exact Hlen]).
  apply endswith_spec in Hs. congruence.
Qed.

End Classifier.

(** C1. A path that ends in the deleted marker [" (deleted)"], or that the
    pattern [(path inode=<N>)] matches at its end, and that starts with none
    of the exclusion prefixes, is a valid deleted file; a path under
    [/tmp/], [/var/log/], [/run/] or [/home/] is not, whether it carries the
    marker or not. *)
Theorem valid_deleted_file_spec (path : string) :
  ((endswith path " (deleted)" = true \/ inode_search path = true) ->
   under_exclusion_prefix path = false ->
   _valid_deleted_file path = true)
  /\
  (startswith path "/tmp/" = true \/ startswith path "/var/log/" = true \/
   startswith path "/run/" = true \/ startswith path "/home/" = true ->
   _valid_deleted_file path = false).
Proof.
  split.
  - intros Hmark Hex.
    pose proof (marked_not_icon_cache path Hmark) as Hicon.
    unfold under_exclusion_prefix, exclusion_prefixes in Hex. cbn [existsb] in Hex.
    repeat (apply orb_false_elim in Hex as [? Hex]).
    unfold _valid_deleted_file.
    repeat match goal with H : startswith path _ = false |- _ => rewrite H; clear H end.
    rewrite Hicon. cbn [orb].
    destruct Hmark as [-> | ->]; [by destruct (inode_search path) | done].
  - intros H. unfold _valid_deleted_file.
    destruct H as [H | [H | [H | H]]]; rewrite H; cbn [orb];
      repeat match goal with |- context [if ?b then false else _] => destruct b end;
      reflexivity.
Qed.

Lemma valid_deleted_file_spec_witness :
  _valid_deleted_file "/usr/lib/libfoo.so.1 (deleted)" = true /\
  _valid_deleted_file "/var/log/app.log (deleted)" = false.
Proof.
  split.
  - apply (proj1 (valid_deleted_file_spec "/usr/lib/libfoo.so.1 (deleted)")).
    + left. reflexivity.
    + reflexivity.
  - apply (proj2 (valid_deleted_file_spec "/var/log/app.log (deleted)")).
    right. left. reflexivity.
Defined.

(** ** The scanner *)

Section Scanner.

Lemma add_record_NoDup val l : NoDup l -> NoDup (add_record val l).
Proof.
  intros Hl. unfold add_record. case_bool_decide as Hin; [done |].
  apply NoDup_app. split; [done |]. split.
  - intros x Hx ->%list_elem_of_singleton. done.
  - apply NoDup_singleton.
Qed.

Lemma scan_maps_NoDup name pid maplines l :
  NoDup l -> NoDup (scan_maps name pid maplines l).
Proof.
  unfold scan_maps. revert l. induction maplines as [|line maplines IH]; intros l Hl; simpl.
  - done.
  - apply IH. destruct (mapline_match line) as [path|]; [|done].
    destruct (negb (String.eqb path "") && _valid_deleted_file path); [|done].
    by apply add_record_NoDup.
Qed.

Lemma scan_filenames_NoDup name pid filenames l :
  NoDup l ->
  NoDup (foldl (fun deleted_files filename =>
           if _valid_deleted_file filename
           then add_record (name, pid, filename) deleted_files
           else deleted_files) l filenames).
Proof.
  revert l. induction filenames as [|filename filenames IH]; intros l Hl; simpl.
  - done.
  - apply IH. destruct (_valid_deleted_file filename); [|done].
    by apply add_record_NoDup.
Qed.

Lemma scan_fds_NoDup w name pid dirpath links l :
  NoDup l -> NoDup (scan_fds w name pid dirpath links l).
Proof.
  revert l. induction links as [|link links IH]; intros l Hl; simpl.
  - done.
  - destruct (readlink w (dirpath +:+ link)) as [target|]; [|done].
    apply IH. by apply scan_filenames_NoDup.
Qed.

Lemma scan_processes_NoDup w procs acc l :
  NoDup acc -> scan_processes w procs acc = Some l -> NoDup l.
Proof.
  revert acc. induction procs as [|[[name pid]|] procs IH]; intros acc Hacc; cbn [scan_processes].
  - by intros [= <-].
  - destruct (fopen w _) as [maps|]; [|done].
    destruct (listdir w _) as [links|]; [|done].
    apply IH. by apply scan_fds_NoDup, scan_maps_NoDup.
  - by apply IH.
Qed.



End Scanner.

(** C9. The list that the scanner returns holds no record twice, also when
    a process reaches the same deleted path through a memory map and
    through a file descriptor. *)
Theorem deleted_files_NoDup (w : World) (l : list record) :
  _deleted_files w = Some l -> NoDup l.
Proof. apply scan_processes_NoDup, NoDup_nil_2. Qed.

Lemma deleted_files_NoDup_witness :
  _deleted_files (Host.world_of "Debian" "Debian" Host.twice)
    = Some [("nginx", 42, "/usr/lib/libfoo.so.1 (deleted)")]
  /\ NoDup [("nginx", 42, "/usr/lib/libfoo.so.1 (deleted)")].
Proof.
  split; [reflexivity |].
  apply (deleted_files_NoDup (Host.world_of "Debian" "Debian" Host.twice)).
  reflexivity.
Defined.



(** ** The loop over the deleted files *)

Section Collect.
Context (w : World) (ignorelist blacklist : list string).

Lemma collect_step_excludepid st r pid :
  pid ∈ st_excludepid st -> pid ∈ st_excludepid (collect_step w ignorelist blacklist st r).
Proof.
  intros Hin. destruct r as [[name pid'] path]. unfold collect_step.
  destruct (bool_decide (path ∈ blacklist) || bool_decide (pid' ∈ st_excludepid st)); [done |].
  destruct (readlink w _) as [exe|]; cbn.
  - by destruct (st_owners_cache st !! exe).
  - apply elem_of_app. by left.
Qed.

Lemma collect_step_excluded excludepid st r :
  (forall pid, pid ∈ excludepid -> pid ∈ st_excludepid st) ->
  excluded blacklist excludepid r = true ->
  collect_step w ignorelist blacklist st r = st.
Proof.
  intros Hsub Hex. destruct r as [[name pid] path]. unfold excluded in Hex.
  unfold collect_step.
  apply orb_true_iff in Hex as [Hex | Hex].
  - by rewrite Hex.
  - apply bool_decide_eq_true in Hex. apply Hsub in Hex.
    rewrite (bool_decide_eq_true_2 _ Hex). by rewrite orb_true_r.
Qed.

Lemma collect_filter_excluded excludepid deleted_files st :
  (forall pid, pid ∈ excludepid -> pid ∈ st_excludepid st) ->
  foldl (collect_step w ignorelist blacklist) st
    (List.filter (fun r => negb (excluded blacklist excludepid r)) deleted_files)
  = foldl (collect_step w ignorelist blacklist) st deleted_files.
Proof.
  revert st. induction deleted_files as [|r deleted_files IH]; intros st Hsub; simpl.
  - done.
  - destruct (excluded blacklist excludepid r) eqn:Hex; simpl.
    + rewrite (collect_step_excluded excludepid st r Hsub Hex). by apply IH.
    + apply IH. intros pid Hpid. by apply collect_step_excludepid, Hsub.
Qed.

End Collect.

(** C5. The deleted-file records whose pid is in [excludepid] or whose path
    is in [blacklist] contribute nothing: the packages, and what
    [restartcheck] returns, are those of the scan with these records
    removed. *)
Theorem excluded_records_contribute_nothing (w : World) (f : os_family)
    (kernel_restart : bool) (ignorelist blacklist : list string) (excludepid : list Z)
    (verbose : bool) (deleted_files : list record) :
  let kept := List.filter (fun r => negb (excluded blacklist excludepid r)) deleted_files in
  collect_packages w ignorelist blacklist excludepid deleted_files
    = collect_packages w ignorelist blacklist excludepid kept
  /\ restartcheck_packages w f kernel_restart ignorelist blacklist excludepid verbose
       deleted_files
     = restartcheck_packages w f kernel_restart ignorelist blacklist excludepid verbose kept.
Proof.
  intros kept.
  assert (collect_packages w ignorelist blacklist excludepid deleted_files
          = collect_packages w ignorelist blacklist excludepid kept) as Heq.
  { unfold collect_packages, kept. by rewrite collect_filter_excluded. }
  split; [exact Heq |]. unfold restartcheck_packages. by rewrite Heq.
Qed.

(** C2. When the loop over the deleted files leaves [packages] empty and no
    kernel restart is required, [restartcheck] returns the string
    ["No packages seem to need to be restarted."], verbose or not. *)
Theorem restartcheck_nothing_to_restart (w : World) (ignorelist blacklist : pyarg string)
    (excludepid : pyarg Z) (verbose : bool) (f : os_family)
    (kernel_versions : list string) (deleted_files : list record) :
  family_of w = Some f ->
  kernel_versions_of w f = Ok kernel_versions ->
  check_kernel w f (cmd_run w "uname -a") kernel_versions = Ok false ->
  _deleted_files w = Some deleted_files ->
  collect_packages w (arg_list str_truthy default_ignorelist ignorelist)
    (arg_list str_truthy [] blacklist) (arg_list int_truthy [] excludepid) deleted_files = [] ->
  restartcheck w ignorelist blacklist excludepid verbose
    = Ok (OStr "No packages seem to need to be restarted.").
Proof.
  intros Hf Hkv Hk Hscan Hpk. unfold restartcheck.
  rewrite Hf, Hkv. cbn [mbind result_bind]. rewrite Hk. cbn [mbind result_bind].
  rewrite Hscan. unfold restartcheck_packages. rewrite Hpk. done.
Qed.

Lemma restartcheck_nothing_to_restart_witness :
  restartcheck (Host.world_of "Debian" "Debian" Host.idle) PNone PNone PNone true
    = Ok (OStr "No packages seem to need to be restarted.").
Proof.
  apply (restartcheck_nothing_to_restart (Host.world_of "Debian" "Debian" Host.idle)
           PNone PNone PNone true Debian ["5.10.46-4"] []); reflexivity.
Defined.

(** ** The keys of [packages] *)

Section Packages.
Context (w : World).

Lemma foldl_invariant {A B} (P : A -> Prop) (step : A -> B -> A) (l : list B) (a : A) :
  (forall a b, P a -> P (step a b)) -> P a -> P (foldl step a l).
Proof.
  intros Hstep. revert a. induction l as [|b l IH]; intros a Ha; simpl; [done |].
  by apply IH, Hstep.
Qed.

Lemma pkg_lookup_None name (packages : list (string * pkg_entry)) :
  pkg_lookup name packages = None -> name ∉ packages.*1.
Proof.
  unfold pkg_lookup. induction packages as [|[n e] packages IH]; simpl.
  - intros _. apply not_elem_of_nil.
  - destruct (String.eqb_spec n name) as [-> | Hne]; simpl; [done |].
    intros H. apply not_elem_of_cons. split; [done | by apply IH].
Qed.

Lemma pkg_alter_keys g name (packages : list (string * pkg_entry)) :
  (pkg_alter g name packages).*1 = packages.*1.
Proof.
  unfold pkg_alter. induction packages as [|[n e] packages IH]; csimpl; [done |].
  f_equal; [by destruct (String.eqb n name) | exact IH].
Qed.

Lemma collect_step_keys ignorelist blacklist st r :
  keys_ok ignorelist (st_packages st) ->
  keys_ok ignorelist (st_packages (collect_step w ignorelist blacklist st r)).
Proof.
  intros [Hnd Hig]. destruct r as [[name pid] path]. unfold collect_step.
  destruct (bool_decide (path ∈ blacklist) || bool_decide (pid ∈ st_excludepid st)); [done |].
  destruct (readlink w _) as [exe|]; [|done].
  set (owner := match st_owners_cache st !! exe with
                | Some packagename => (packagename, st_owners_cache st)
                | None => _
                end).
  destruct owner as [packagename owners_cache]. cbn [st_packages].
  destruct (str_truthy packagename); cbn [andb]; [|done].
  case_bool_decide as Hin; cbn [negb]; [done |].
  destruct (pkg_lookup packagename (st_packages st)) as [e|] eqn:Hlook.
  - case_bool_decide; [done |]. unfold keys_ok. by rewrite pkg_alter_keys.
  - apply pkg_lookup_None in Hlook. unfold keys_ok. rewrite fmap_app. split.
    + apply NoDup_app. split; [done |]. split; [|apply NoDup_singleton].
      intros x Hx ->%list_elem_of_singleton. done.
    + apply Forall_app. split; [done |]. by apply Forall_singleton.
Qed.

Lemma collect_packages_keys ignorelist blacklist excludepid deleted_files :
  keys_ok ignorelist (collect_packages w ignorelist blacklist excludepid deleted_files).
Proof.
  unfold collect_packages.
  apply (foldl_invariant (fun st => keys_ok ignorelist (st_packages st))).
  - intros st r. apply collect_step_keys.
  - split; [apply NoDup_nil_2 | apply Forall_nil_2].
Qed.

Lemma package_services_keys f packages packages' :
  package_services w f packages = Ok packages' -> packages'.*1 = packages.*1.
Proof.
  revert packages'. induction packages as [|[package e] packages IH]; intros packages'; simpl.
  - by intros [= <-].
  - destruct (file_lines w f e _) as [e'|]; cbn [mbind result_bind]; [|done].
    destruct (package_services w f packages) as [rest|]; cbn [mbind result_bind]; [|done].
    intros [= <-]. simpl. f_equal. by apply IH.
Qed.

Lemma fallback_services_keys (packages : list (string * pkg_entry)) :
  (fallback_services w packages).*1 = packages.*1.
Proof.
  unfold fallback_services. induction packages as [|[n e] packages IH]; csimpl; [done |].
  by f_equal.
Qed.

End Packages.

(** ** The plan *)

Section Plan.

(** The loop that builds the plan, as four lists computed from [packages]. *)
Lemma foldl_plan_step packages pl :
  foldl plan_step pl packages =
  {| restartable :=
       restartable pl ++ (List.filter (fun p => has_service (snd p)) packages).*1;
     nonrestartable :=
       nonrestartable pl ++ (List.filter (fun p => negb (has_service (snd p))) packages).*1;
     restartinitcommands := restartinitcommands pl ++ flat_map init_commands_of packages;
     restartservicecommands :=
       restartservicecommands pl ++ flat_map service_commands_of packages |}.
Proof.
  revert pl. induction packages as [|[package e] packages IH]; intros pl; cbn [foldl].
  - destruct pl. cbn. by rewrite !app_nil_r.
  - rewrite IH. unfold plan_step, has_service, init_commands_of, service_commands_of.
    cbn [List.filter flat_map snd].
    destruct (0 <? length (initscripts e))%nat eqn:Hi; cbn [orb negb].
    + csimpl. by rewrite <- !app_assoc, ?app_nil_r.
    + destruct (initscripts e) as [|? ?] eqn:Hinit; [|done]. cbn [map app].
      destruct (0 <? length (systemdservice e))%nat eqn:Hs; cbn [negb].
      * csimpl. by rewrite <- !app_assoc, ?app_nil_r.
      * destruct (systemdservice e) as [|? ?]; [|done].
        csimpl. by rewrite <- !app_assoc, ?app_nil_r.
Qed.

Lemma filter_partition_keys (g : string * pkg_entry -> bool)
    (packages : list (string * pkg_entry)) :
  (List.filter g packages).*1 ++ (List.filter (fun p => negb (g p)) packages).*1
  ≡ₚ packages.*1.
Proof.
  induction packages as [|p packages IH]; cbn [List.filter]; [done |].
  destruct (g p); cbn [negb]; csimpl.
  - by rewrite IH.
  - by rewrite <- Permutation_middle, IH.
Qed.

Lemma elem_of_filter_keys (g : string * pkg_entry -> bool) name e
    (packages : list (string * pkg_entry)) :
  (name, e) ∈ packages -> g (name, e) = true -> name ∈ (List.filter g packages).*1.
Proof.
  intros Hin Hg. apply list_elem_of_fmap. exists (name, e). split; [done |].
  apply list_elem_of_In, filter_In. split; [by apply list_elem_of_In | done].
Qed.

End Plan.

(** C6. In the plan built from the packages of a run, every package is
    once in [restartable ++ nonrestartable]: in [restartable] and not in
    [nonrestartable] when it has an init script or a systemd service, in
    [nonrestartable] and not in [restartable] otherwise; nothing else is in
    these lists. *)
Theorem plan_partition (w : World) (f : os_family) (ignorelist blacklist : list string)
    (excludepid : list Z) (deleted_files : list record)
    (found : list (string * pkg_entry)) :
  package_services w f (collect_packages w ignorelist blacklist excludepid deleted_files)
    = Ok found ->
  let packages := fallback_services w found in
  let pl := restart_plan packages in
  NoDup (restartable pl ++ nonrestartable pl)
  /\ (forall name, name ∈ restartable pl ++ nonrestartable pl <-> name ∈ packages.*1)
  /\ (forall name e, (name, e) ∈ packages ->
        if has_service e
        then name ∈ restartable pl /\ name ∉ nonrestartable pl
        else name ∈ nonrestartable pl /\ name ∉ restartable pl).
Proof.
  intros Hfound packages pl.
  assert (NoDup packages.*1) as Hkeys.
  { unfold packages. rewrite fallback_services_keys, (package_services_keys _ _ _ _ Hfound).
    apply collect_packages_keys. }
  assert (restartable pl ++ nonrestartable pl ≡ₚ packages.*1) as Hperm.
  { unfold pl, restart_plan. rewrite foldl_plan_step. cbn [restartable nonrestartable app].
    apply filter_partition_keys. }
  assert (NoDup (restartable pl ++ nonrestartable pl)) as Hnd by by rewrite Hperm.
  split; [exact Hnd |]. split.
  - intros name. by rewrite Hperm.
  - intros name e Hin. apply NoDup_app in Hnd as (_ & Hdisj & _).
    unfold pl, restart_plan in *. rewrite foldl_plan_step in *.
    cbn [restartable nonrestartable app] in *.
    destruct (has_service e) eqn:He.
    + assert (name ∈ (List.filter (fun p => has_service (snd p)) packages).*1) as Hr
        by (by apply (elem_of_filter_keys _ name e)).
      split; [exact Hr | by apply Hdisj].
    + assert (name ∈ (List.filter (fun p => negb (has_service (snd p))) packages).*1) as Hn
        by (apply (elem_of_filter_keys _ name e); [done | by cbn; rewrite He]).
      split; [exact Hn |]. intros Hr. by apply (Hdisj name).
Qed.

Lemma plan_partition_witness :
  let w := Host.world_of "Debian" "Debian" Host.both in
  let packages :=
    fallback_services w
      [("nginx", {| initscripts := ["nginx"]; systemdservice := ["nginx.service"];
                    processes := [program_line 42 "/usr/sbin/nginx" "/usr/lib/libfoo.so.1"];
                    process_name := "nginx" |})] in
  NoDup (restartable (restart_plan packages) ++ nonrestartable (restart_plan packages)).
Proof.
  intros w packages.
  apply (plan_partition w Debian default_ignorelist [] []
           [("nginx", 42, "/usr/lib/libfoo.so.1")]).
  reflexivity.
Defined.

(** C7, as stated, fails: on the host [Host.both] the package [nginx] has
    the init script [nginx] and the systemd unit [nginx.service], and the
    plan holds no [systemctl restart nginx.service]. *)
Lemma unit_of_package_with_init_script_has_no_command :
  ~ (forall (w : World) (f : os_family) (deleted_files : list record)
            (found : list (string * pkg_entry)),
       package_services w f (collect_packages w default_ignorelist [] [] deleted_files)
         = Ok found ->
       forall name e s, (name, e) ∈ fallback_services w found ->
         (s ∈ initscripts e ->
          init_command s ∈ restartinitcommands (restart_plan (fallback_services w found)))
         /\ (s ∈ systemdservice e ->
             service_command s ∈ restartservicecommands (restart_plan (fallback_services w found)))).
Proof.
  intros H.
  pose (e := {| initscripts := ["nginx"]; systemdservice := ["nginx.service"];
                processes := [program_line 42 "/usr/sbin/nginx" "/usr/lib/libfoo.so.1"];
                process_name := "nginx" |}).
  specialize (H (Host.world_of "Debian" "Debian" Host.both) Debian
                [("nginx", 42, "/usr/lib/libfoo.so.1")] [("nginx", e)] eq_refl
                "nginx" e "nginx.service").
  destruct H as [_ H]; [apply list_elem_of_singleton; reflexivity |].
  specialize (H ltac:(apply list_elem_of_singleton; reflexivity)).
  vm_compute in H. by apply elem_of_nil in H.
Qed.

(** C7, amended.  The plan holds, package after package, one command
    [service <name> restart] for each init script of the package, and one
    command [systemctl restart <name>] for each systemd unit of a package
    that has no init script. *)
Theorem restart_commands (packages : list (string * pkg_entry)) :
  restartinitcommands (restart_plan packages)
    = flat_map (fun p => map (fun s => "service " +:+ s +:+ " restart") (initscripts (snd p)))
        packages
  /\ restartservicecommands (restart_plan packages)
     = flat_map (fun p => match initscripts (snd p) with
                          | [] => map (fun s => "systemctl restart " +:+ s)
                                    (systemdservice (snd p))
                          | _ :: _ => []
                          end) packages.
Proof.
  unfold restart_plan. rewrite foldl_plan_step.
  cbn [restartinitcommands restartservicecommands app]. split; [done |].
  induction packages as [|[package e] packages IH]; cbn [flat_map]; [done |].
  rewrite IH. f_equal. unfold service_commands_of. cbn [snd].
  by destruct (initscripts e).
Qed.

(** ** Oneshot units *)

(** C3. The code at a unit whose body has the line [Type=oneshot]: the
    test [line.find('Type=oneshot') > 0] misses the directive at the start
    of a line (index 0), so the unit [fstrim.service] of the host
    [Host.oneshot] is recorded and a restart command is made for it; the
    directive is seen only when something precedes it on its line. *)
Theorem oneshot_unit_recorded :
  let w := Host.world_of "Debian" "Debian" Host.oneshot in
  find ("Type=oneshot" +:+ nl) "Type=oneshot" = 0
  /\ is_oneshot Host.oneshot_unit = false
  /\ is_oneshot (" Type=oneshot" +:+ nl) = true
  /\ package_services w Debian
       (collect_packages w default_ignorelist [] [] [("fstrim", 42, "/usr/lib/libfoo.so.1")])
     = Ok [("fstrim",
            {| initscripts := []; systemdservice := ["fstrim.service"];
               processes := [program_line 42 "/sbin/fstrim" "/usr/lib/libfoo.so.1"];
               process_name := "fstrim" |})]
  /\ restartcheck w PNone PNone PNone false = Ok (OList ["fstrim"])
  /\ exists report,
       restartcheck w PNone PNone PNone true = Ok (OStr report)
       /\ endswith report "systemctl restart fstrim.service" = true.
Proof.
  intros w. repeat split; try reflexivity.
  eexists. split; [vm_compute; reflexivity | vm_compute; reflexivity].
Qed.

(** ** The installed kernel on Debian *)

Section DebianKernel.

Lemma py_index_neg2 {A} (init : list A) (k last : A) :
  py_index (init ++ [k; last]) (-2) = Ok k.
Proof.
  unfold py_index. rewrite length_app. cbn [length].
  replace (-2 <? 0) with true by done.
  set (n := Z.of_nat (length init + 2)).
  assert (n = Z.of_nat (length init) + 2) as Hn by (unfold n; lia).
  replace (-2 + n <? 0) with false by (symmetry; apply Z.ltb_ge; lia).
  replace (n <=? -2 + n) with false by (symmetry; apply Z.leb_gt; lia).
  cbn [orb]. replace (Z.to_nat (-2 + n)) with (length init + 0)%nat by lia.
  by rewrite lookup_app_r, Nat.add_0_r, Nat.sub_diag by lia.
Qed.

Lemma py_index_neg2_short {A} (l : list A) :
  (length l < 2)%nat -> py_index l (-2) = Raise IndexError.
Proof.
  intros Hlen. unfold py_index. replace (-2 <? 0) with true by done.
  replace (-2 + Z.of_nat (length l) <? 0) with true by (symmetry; apply Z.ltb_lt; lia).
  done.
Qed.

End DebianKernel.

(** The selection on a list: the second-to-last element of two or more,
    the only element of one. *)
Lemma debian_select_kernel_spec :
  (forall (init : list string) (k last : string),
     debian_select_kernel (init ++ [k; last]) = Ok k)
  /\ (forall k : string, debian_select_kernel [k] = Ok k).
Proof.
  split.
  - intros init k last. unfold debian_select_kernel. by rewrite py_index_neg2.
  - intros k. reflexivity.
Qed.

(** C8. On Debian the kernel detector [_kernel_versions_debian] takes the
    second-to-last line of the output of
    [dpkg --get-selections linux-image-*] as the installed kernel, and the
    first line when the output has only one: what it returns is what
    [apt-cache policy] reports as installed for the package of that line
    (the line without its install marker), and for no other line. *)
Theorem kernel_versions_debian_selects (w : World) :
  (forall init k last,
     splitlines (cmd_run w "dpkg --get-selections linux-image-*") = init ++ [k; last] ->
     _kernel_versions_debian w = debian_versions_of w k)
  /\ (forall k,
        splitlines (cmd_run w "dpkg --get-selections linux-image-*") = [k] ->
        _kernel_versions_debian w = debian_versions_of w k)
  /\ (forall init k last line,
        splitlines (cmd_run w "dpkg --get-selections linux-image-*") = init ++ [k; last] ->
        String.eqb (grains_os w) "Ubuntu" = false ->
        List.find (fun line => startswith line "  Installed: ")
          (splitlines (cmd_run w ("apt-cache policy "
                                  +:+ rstrip k (tab +:+ tab +:+ "install"))))
          = Some line ->
        _kernel_versions_debian w = Ok [strip line "  Installed: "]).
Proof.
  assert (forall init k last,
            splitlines (cmd_run w "dpkg --get-selections linux-image-*") = init ++ [k; last] ->
            _kernel_versions_debian w = debian_versions_of w k) as Htwo.
  { intros init k last Hlines. unfold _kernel_versions_debian, debian_kernels.
    rewrite Hlines. unfold debian_select_kernel. by rewrite py_index_neg2. }
  split; [exact Htwo |]. split.
  - intros k Hlines. unfold _kernel_versions_debian, debian_kernels. by rewrite Hlines.
  - intros init k last line Hlines Hos Hline. rewrite (Htwo init k last Hlines).
    unfold debian_versions_of. by rewrite Hos, Hline.
Qed.

Lemma kernel_versions_debian_selects_witness :
  let w3 := Host.world_of "Debian" "Debian" MoreHosts.three_kernels in
  let w1 := Host.world_of "Debian" "Debian" MoreHosts.one_kernel in
  (_kernel_versions_debian w3
   = debian_versions_of w3 ("linux-image-5.10.0-8-amd64" +:+ tab +:+ tab +:+ tab +:+ tab
                            +:+ "install")
   /\ _kernel_versions_debian w3 = Ok ["5.10.46-4"])
  /\ (_kernel_versions_debian w1
      = debian_versions_of w1 ("linux-image-4.19.0-17-amd64" +:+ tab +:+ tab +:+ tab +:+ tab
                               +:+ "install")
      /\ debian_versions_of w1 ("linux-image-4.19.0-17-amd64" +:+ tab +:+ tab +:+ tab +:+ tab
                                +:+ "install") = Ok ["4.19.194-3"]).
Proof.
  intros w3 w1. split; [split | split].
  - apply (proj1 (kernel_versions_debian_selects w3)
             ["linux-image-4.19.0-17-amd64" +:+ tab +:+ tab +:+ tab +:+ tab +:+ "install"]
             _ ("linux-image-amd64" +:+ tab +:+ tab +:+ tab +:+ tab +:+ "install")).
    reflexivity.
  - apply (proj2 (proj2 (kernel_versions_debian_selects w3))
             ["linux-image-4.19.0-17-amd64" +:+ tab +:+ tab +:+ tab +:+ tab +:+ "install"]
             ("linux-image-5.10.0-8-amd64" +:+ tab +:+ tab +:+ tab +:+ tab +:+ "install")
             ("linux-image-amd64" +:+ tab +:+ tab +:+ tab +:+ tab +:+ "install")
             "  Installed: 5.10.46-4"); reflexivity.
  - apply (proj1 (proj2 (kernel_versions_debian_selects w1))). reflexivity.
  - reflexivity.
Defined.

(** ** The ignore list *)

(** C10. The entries [screen] and [systemd] are the ignore list when the
    caller passes none, an empty list or an empty string; a non-empty list
    or string of the caller is the whole ignore list.  No package of the
    ignore list in force is among the packages; so [screen] is not reported
    by default, and is reported when the caller passes the list [foo]. *)
Theorem ignorelist_defaults :
  arg_list str_truthy default_ignorelist PNone = ["screen"; "systemd"]
  /\ arg_list str_truthy default_ignorelist (PList []) = ["screen"; "systemd"]
  /\ arg_list str_truthy default_ignorelist (PScalar "") = ["screen"; "systemd"]
  /\ (forall (a : string) (l : list string),
        arg_list str_truthy default_ignorelist (PList (a :: l)) = a :: l)
  /\ (forall (c : ascii) (s : string),
        arg_list str_truthy default_ignorelist (PScalar (String c s)) = [String c s])
  /\ (forall (w : World) (ignorelist blacklist : list string) (excludepid : list Z)
             (deleted_files : list record),
        Forall (fun name => name ∉ ignorelist)
          (collect_packages w ignorelist blacklist excludepid deleted_files).*1)
  /\ (let w := Host.world_of "Debian" "Debian" Host.screen in
      restartcheck w PNone PNone PNone false = Ok (OStr no_restart_message)
      /\ restartcheck w (PList ["foo"]) PNone PNone false = Ok (OList ["screen"])
      /\ restartcheck w (PScalar "foo") PNone PNone false = Ok (OList ["screen"])).
Proof.
  repeat split; try reflexivity.
  intros w ignorelist blacklist excludepid deleted_files.
  apply collect_packages_keys.
Qed.

(** ** Shared lemmas of the further properties *)

Section ClassifierMore.

Lemma valid_deleted_file_spec_aux path :
  endswith path " (deleted)" = true \/ inode_search path = true ->
  under_exclusion_prefix path = false ->
  _valid_deleted_file path = true.
Proof.
  intros Hmark Hex.
  pose proof (marked_not_icon_cache path Hmark) as Hicon.
  unfold under_exclusion_prefix, exclusion_prefixes in Hex. cbn [existsb] in Hex.
  repeat (apply orb_false_elim in Hex as [? Hex]).
  unfold _valid_deleted_file.
  repeat match goal with H : startswith path _ = false |- _ => rewrite H; clear H end.
  rewrite Hicon. cbn [orb].
  destruct Hmark as [-> | ->]; [by destruct (inode_search path) | done].
Qed.

End ClassifierMore.

(** * Further properties of the module *)

(** ** The classifier, completely *)

(** X1. [_valid_deleted_file] accepts exactly the paths that carry a mark
    (the suffix [" (deleted)"] or a match of the inode pattern), start
    with none of the exclusion prefixes and do not end in
    [icon-theme.cache]; in particular no unmarked path is accepted. *)
Theorem valid_deleted_file_iff (path : string) :
  _valid_deleted_file path
  = (endswith path " (deleted)" || inode_search path)
    && negb (under_exclusion_prefix path)
    && negb (endswith path "icon-theme.cache").
Proof.
  apply eq_true_iff_eq. split.
  - unfold _valid_deleted_file. intros H. cbv zeta in H.
    repeat match type of H with
           | (if ?b then false else _) = true =>
               destruct b eqn:?; [cbv iota in H; discriminate H |]
           end.
    repeat match goal with
           | E : _ || _ = false |- _ => apply orb_false_elim in E as [? ?]
           end.
    unfold under_exclusion_prefix, exclusion_prefixes. cbn [existsb].
    repeat match goal with E : startswith path _ = false |- _ => rewrite E; clear E end.
    cbn [orb negb andb]. rewrite !andb_true_r.
    destruct (inode_search path); [apply orb_true_r |].
    destruct (endswith path " (deleted)"); [done | discriminate H].
  - intros H. apply andb_true_iff in H as [H Hicon].
    apply andb_true_iff in H as [Hmark Hex].
    apply negb_true_iff in Hicon, Hex. apply orb_true_iff in Hmark.
    by apply valid_deleted_file_spec_aux.
Qed.

(** ** Where the records of the scan come from *)

Section ScannerMore.
Context (w : World).

Lemma add_record_Forall (P : record -> Prop) val l :
  P val -> Forall P l -> Forall P (add_record val l).
Proof.
  intros Hval Hl. unfold add_record. case_bool_decide; [done |].
  apply Forall_app. split; [done | by apply Forall_singleton].
Qed.

Lemma scan_maps_reported name pid maps maplines l :
  Some (name, pid) ∈ process_iter w ->
  fopen w ("/proc/" +:+ pretty pid +:+ "/maps") = Some maps ->
  (forall line, line ∈ maplines -> line ∈ readlines maps) ->
  Forall (reported_by w) l -> Forall (reported_by w) (scan_maps name pid maplines l).
Proof.
  intros Hproc Hmaps. unfold scan_maps. revert l.
  induction maplines as [|line maplines IH]; intros l Hsub Hl; cbn [foldl]; [done |].
  apply IH; [intros x Hx; apply Hsub; by right |].
  destruct (mapline_match line) as [path|] eqn:Hmatch; [|done].
  destruct (negb (String.eqb path "")); cbn [andb]; [|done].
  destruct (_valid_deleted_file path) eqn:Hvalid; [|done].
  apply add_record_Forall; [|done]. split; [done |]. left.
  exists maps, line, path. repeat split; try done. apply Hsub. by left.
Qed.

Lemma scan_fds_reported name pid all_links links l :
  Some (name, pid) ∈ process_iter w ->
  listdir w ("/proc/" +:+ pretty pid +:+ "/fd/") = Some all_links ->
  (forall link, link ∈ links -> link ∈ all_links) ->
  Forall (reported_by w) l ->
  Forall (reported_by w)
    (scan_fds w name pid ("/proc/" +:+ pretty pid +:+ "/fd/") links l).
Proof.
  intros Hproc Hdir. revert l.
  induction links as [|link links IH]; intros l Hsub Hl; cbn [scan_fds]; [done |].
  destruct (readlink w (("/proc/" +:+ pretty pid +:+ "/fd/") +:+ link)) as [target|]
    eqn:Htarget; [|done].
  apply IH; [intros x Hx; apply Hsub; by right |].
  assert (forall filenames,
            (forall filename, filename ∈ filenames -> filename ∈ fd_filenames w target) ->
            forall l, Forall (reported_by w) l ->
            Forall (reported_by w)
              (foldl (fun deleted_files filename =>
                        if _valid_deleted_file filename
                        then add_record (name, pid, filename) deleted_files
                        else deleted_files) l filenames)) as Hfiles.
  { induction filenames as [|filename filenames IHf]; intros Hsubf l' Hl'; cbn [foldl];
      [done |].
    apply IHf; [intros x Hx; apply Hsubf; by right |].
    destruct (_valid_deleted_file filename) eqn:Hvalid; [|done].
    apply add_record_Forall; [|done]. split; [done |]. right.
    exists all_links, link, target. repeat split; try done.
    - apply Hsub. by left.
    - apply Hsubf. by left. }
  by apply Hfiles.
Qed.

Lemma scan_processes_reported procs acc l :
  (forall proc, proc ∈ procs -> proc ∈ process_iter w) ->
  Forall (reported_by w) acc ->
  scan_processes w procs acc = Some l -> Forall (reported_by w) l.
Proof.
  revert acc. induction procs as [|[[name pid]|] procs IH]; intros acc Hsub Hacc;
    cbn [scan_processes].
  - by intros [= <-].
  - destruct (fopen w ("/proc/" +:+ pretty pid +:+ "/maps")) as [maps|] eqn:Hmaps; [|done].
    destruct (listdir w ("/proc/" +:+ pretty pid +:+ "/fd/")) as [links|] eqn:Hdir; [|done].
    assert (Some (name, pid) ∈ process_iter w) as Hproc by (apply Hsub; left).
    apply IH.
    + intros proc Hin. apply Hsub. by right.
    + apply (scan_fds_reported name pid links); [done | done | done |].
      by apply (scan_maps_reported name pid maps).
  - apply IH; [|done]. intros proc Hin. apply Hsub. by right.
Qed.

End ScannerMore.

(** X2. Every record of the scan names a process that [psutil] listed, and
    its path comes from that process: it is the path of a line of its
    [maps] file that the classifier accepts, without its last ten
    characters, or a file name that the classifier accepts among those one
    of the readable links of its [fd] directory stands for. *)
Theorem deleted_files_reported (w : World) (l : list record) :
  _deleted_files w = Some l -> Forall (reported_by w) l.
Proof.
  apply scan_processes_reported; [done | apply Forall_nil_2].
Qed.

Lemma deleted_files_reported_witness :
  Forall (reported_by (Host.world_of "Debian" "Debian" Host.twice))
    [("nginx", 42, "/usr/lib/libfoo.so.1 (deleted)")].
Proof.
  apply (deleted_files_reported (Host.world_of "Debian" "Debian" Host.twice)).
  reflexivity.
Defined.

(** ** What the loop over the deleted files keeps true *)

Section CollectMore.
Context (w : World) (ignorelist blacklist : list string) (excludepid : list Z)
        (deleted_files : list record).

Lemma foldl_invariant_in {A B} (P : A -> Prop) (step : A -> B -> A) (l : list B) (a : A) :
  (forall a b, b ∈ l -> P a -> P (step a b)) -> P a -> P (foldl step a l).
Proof.
  revert a. induction l as [|b l IH]; intros a Hstep Ha; cbn [foldl]; [done |].
  apply IH.
  - intros a' b' Hb'. apply Hstep. by right.
  - apply Hstep; [by left | done].
Qed.

Lemma pkg_lookup_Some_unique name e e' (packages : list (string * pkg_entry)) :
  NoDup packages.*1 -> pkg_lookup name packages = Some e -> (name, e') ∈ packages -> e' = e.
Proof.
  unfold pkg_lookup. induction packages as [|[n x] packages IH]; csimpl.
  - by intros _ _ ?%elem_of_nil.
  - intros [Hn Hnd]%NoDup_cons. destruct (String.eqb_spec n name) as [-> | Hne]; csimpl.
    + intros [= <-] [[= <-] | Hin]%elem_of_cons; [done |].
      exfalso. apply Hn. apply list_elem_of_fmap. by exists (name, e').
    + intros Hlook [[= -> _] | Hin]%elem_of_cons; [done | by apply IH].
Qed.

Lemma Forall_pkg_alter (P : string * pkg_entry -> Prop) g name
    (packages : list (string * pkg_entry)) :
  Forall P packages ->
  (forall e, (name, e) ∈ packages -> P (name, e) -> P (name, g e)) ->
  Forall P (pkg_alter g name packages).
Proof.
  unfold pkg_alter. induction packages as [|[n x] packages IH]; intros Hall Hg; csimpl.
  - apply Forall_nil_2.
  - apply Forall_cons in Hall as [Hx Hall]. apply Forall_cons. split.
    + destruct (String.eqb_spec n name) as [-> | Hne]; [|done].
      apply Hg; [by left | done].
    + apply IH; [done |]. intros e He. apply Hg. by right.
Qed.

Lemma collect_step_inv st r :
  r ∈ deleted_files ->
  collect_inv w ignorelist blacklist excludepid deleted_files st ->
  collect_inv w ignorelist blacklist excludepid deleted_files
    (collect_step w ignorelist blacklist st r).
Proof.
  intros Hr (Hex & Hcache & Hok & Hall). pose proof (proj1 Hok) as Hnd.
  pose proof (collect_step_keys w ignorelist blacklist st r) as Hkeys.
  destruct r as [[name pid] path]. unfold collect_step in *.
  destruct (bool_decide (path ∈ blacklist)) eqn:Hbl; cbn [orb] in *; [done |].
  destruct (bool_decide (pid ∈ st_excludepid st)) eqn:Hpid; [done |].
  apply bool_decide_eq_false in Hbl, Hpid.
  assert (pid ∉ excludepid) as Hpid' by (intros Hin; by apply Hpid, Hex).
  fold (exe_of w pid) in *. destruct (exe_of w pid) as [exe|] eqn:Hexe.
  2:{ split; [|done]. intros pid' Hin. cbn. apply elem_of_app. left. by apply Hex. }
  set (owner := match st_owners_cache st !! exe with
                | Some packagename => (packagename, st_owners_cache st)
                | None => _
                end) in *.
  assert (filed_as w deleted_files exe owner.1) as Hfiled.
  { unfold owner. destruct (st_owners_cache st !! exe) as [k|] eqn:Hk; cbn [fst].
    - by apply (Hcache exe).
    - by exists name, pid, path. }
  assert (forall exe' package, owner.2 !! exe' = Some package ->
            filed_as w deleted_files exe' package) as Hcache'.
  { unfold owner in *. destruct (st_owners_cache st !! exe) as [k|] eqn:Hk; cbn [fst snd] in *.
    - done.
    - intros exe' package. destruct (decide (exe = exe')) as [<- | Hne].
      + rewrite lookup_insert_eq. by intros [= <-].
      + rewrite lookup_insert_ne by done. apply Hcache. }
  destruct owner as [packagename owners_cache]. cbn [fst snd st_packages st_excludepid
    st_owners_cache] in *.
  split; [done |]. split; [done |].
  split; [by apply Hkeys |]. clear Hkeys.
  destruct (str_truthy packagename) eqn:Htruthy; cbn [andb]; [|done].
  assert (packagename <> "") as Hne.
  { intros ->. discriminate Htruthy. }
  case_bool_decide as Hig; cbn [negb]; [done |].
  assert (line_from w blacklist excludepid deleted_files packagename
            (program_line pid exe path)) as Hline.
  { by exists name, pid, path, exe. }
  destruct (pkg_lookup packagename (st_packages st)) as [e|] eqn:Hlook.
  - case_bool_decide as Hprog; [done |].
    apply Forall_pkg_alter; [done |].
    intros e' He' [(H1 & H2 & H3 & H4 & H5 & H6) H7].
    assert (e' = e) as -> by by eapply pkg_lookup_Some_unique.
    split; [|cbn; apply Forall_app; split; [done | by apply Forall_singleton]].
    cbn. repeat split; try done.
    + by destruct (processes e).
    + apply NoDup_app. split; [done |]. split; [|apply NoDup_singleton].
      intros x Hx ->%list_elem_of_singleton. done.
  - apply Forall_app. split; [done |]. apply Forall_singleton.
    split; [|cbn; by apply Forall_singleton].
    cbn. repeat split; try done.
    + apply NoDup_singleton.
    + by exists pid, path.
Qed.

Lemma collect_final_inv :
  collect_inv w ignorelist blacklist excludepid deleted_files
    (foldl (collect_step w ignorelist blacklist)
       {| st_excludepid := excludepid; st_owners_cache := ∅; st_packages := [] |}
       deleted_files).
Proof.
  apply foldl_invariant_in.
  - intros st r. apply collect_step_inv.
  - split; [done |]. split; [|split; [|apply Forall_nil_2]].
    + intros exe package. cbn [st_owners_cache]. by rewrite lookup_empty.
    + split; [apply NoDup_nil_2 | apply Forall_nil_2].
Qed.

Lemma collect_packages_inv :
  Forall (entry_ok w blacklist excludepid deleted_files)
    (collect_packages w ignorelist blacklist excludepid deleted_files).
Proof. unfold collect_packages. apply collect_final_inv. Qed.

(** *** No record is lost *)

Lemma pkg_lookup_Some_elem name e (packages : list (string * pkg_entry)) :
  pkg_lookup name packages = Some e -> (name, e) ∈ packages.
Proof.
  unfold pkg_lookup. induction packages as [|[n x] packages IH]; csimpl; [done |].
  destruct (String.eqb_spec n name) as [-> | Hne]; csimpl.
  - intros [= <-]. by left.
  - intros H. right. by apply IH.
Qed.

Lemma elem_of_pkg_alter_add_process x name package e program
    (packages : list (string * pkg_entry)) :
  (package, e) ∈ packages -> program ∈ processes e ->
  exists e', (package, e') ∈ pkg_alter (add_process x) name packages /\
             program ∈ processes e'.
Proof.
  intros Hin Hprog. unfold pkg_alter.
  destruct (String.eqb package name) eqn:Heq.
  - exists (add_process x e). split.
    + apply list_elem_of_fmap. exists (package, e). cbn [fst snd]. by rewrite Heq.
    + cbn. apply elem_of_app. by left.
  - exists e. split; [|done].
    apply list_elem_of_fmap. exists (package, e). cbn [fst snd]. by rewrite Heq.
Qed.

Lemma collect_step_line_kept exe program st r :
  line_kept ignorelist exe program st -> line_kept ignorelist exe program (collect_step w ignorelist blacklist st r).
Proof.
  intros (package & Hc & Hkept). destruct r as [[name pid] path]. unfold collect_step.
  destruct (bool_decide (path ∈ blacklist) || bool_decide (pid ∈ st_excludepid st));
    [by exists package |].
  destruct (readlink w _) as [exe'|]; [|by exists package].
  assert (forall cache' packages',
            (forall x, st_owners_cache st !! exe = Some x -> cache' !! exe = Some x) ->
            (forall e, (package, e) ∈ st_packages st -> program ∈ processes e ->
               exists e', (package, e') ∈ packages' /\ program ∈ processes e') ->
            line_kept ignorelist exe program
              {| st_excludepid := st_excludepid st; st_owners_cache := cache';
                 st_packages := packages' |}) as Hframe.
  { intros cache' packages' Hc' Hp'. exists package. split; [by apply Hc' |].
    destruct Hkept as [? | [? | (e & He & Hprog)]]; [by left | by right; left |].
    right. right. by apply (Hp' e). }
  set (owner := match st_owners_cache st !! exe' with
                | Some packagename => (packagename, st_owners_cache st)
                | None => _
                end).
  assert (forall x, st_owners_cache st !! exe = Some x -> owner.2 !! exe = Some x) as Hc'.
  { unfold owner. destruct (st_owners_cache st !! exe') as [k|] eqn:Hk; cbn [snd]; [done |].
    intros x Hx. rewrite lookup_insert_ne; [done |]. intros <-. congruence. }
  destruct owner as [packagename owners_cache]. cbn [snd] in Hc'.
  apply Hframe; [done |]. intros e He Hprog.
  destruct (str_truthy packagename && negb (bool_decide (packagename ∈ ignorelist)));
    [|by exists e].
  destruct (pkg_lookup packagename (st_packages st)) as [e0|].
  - case_bool_decide; [by exists e |]. by apply (elem_of_pkg_alter_add_process _ _ _ e).
  - exists e. split; [|done]. apply elem_of_app. by left.
Qed.

Lemma collect_step_takes st name pid path exe :
  path ∉ blacklist -> pid ∉ st_excludepid st -> exe_of w pid = Some exe ->
  line_kept ignorelist exe (program_line pid exe path)
    (collect_step w ignorelist blacklist st (name, pid, path)).
Proof.
  intros Hbl Hpid Hexe. unfold collect_step.
  rewrite (bool_decide_eq_false_2 _ Hbl), (bool_decide_eq_false_2 _ Hpid). cbn [orb].
  fold (exe_of w pid). rewrite Hexe.
  set (owner := match st_owners_cache st !! exe with
                | Some packagename => (packagename, st_owners_cache st)
                | None => _
                end).
  assert (owner.2 !! exe = Some owner.1) as Hc.
  { unfold owner. destruct (st_owners_cache st !! exe) as [k|] eqn:Hk; cbn [fst snd]; [done |].
    apply lookup_insert_eq. }
  destruct owner as [packagename owners_cache]. cbn [fst snd] in Hc.
  exists packagename. split; [done |]. cbn [st_packages].
  unfold str_truthy. destruct (String.eqb_spec packagename "") as [-> | Hne]; [by left |].
  cbn [negb andb]. case_bool_decide as Hig; [by right; left |]. cbn [negb].
  right. right.
  destruct (pkg_lookup packagename (st_packages st)) as [e|] eqn:Hlook.
  - apply pkg_lookup_Some_elem in Hlook. case_bool_decide as Hprog; [by exists e |].
    exists (add_process (program_line pid exe path) e). split.
    + unfold pkg_alter. apply list_elem_of_fmap. exists (packagename, e).
      cbn [fst snd]. by rewrite String.eqb_refl.
    + cbn. apply elem_of_app. right. by apply list_elem_of_singleton.
  - eexists. split; [apply elem_of_app; right; by apply list_elem_of_singleton |].
    cbn. by apply list_elem_of_singleton.
Qed.

Lemma collect_step_excludepid_unreadable st r :
  (forall pid, pid ∈ st_excludepid st -> pid ∈ excludepid \/ exe_of w pid = None) ->
  forall pid, pid ∈ st_excludepid (collect_step w ignorelist blacklist st r) ->
              pid ∈ excludepid \/ exe_of w pid = None.
Proof.
  intros Hst pid. destruct r as [[name pid'] path]. unfold collect_step.
  destruct (bool_decide (path ∈ blacklist) || bool_decide (pid' ∈ st_excludepid st));
    [apply Hst |].
  fold (exe_of w pid'). destruct (exe_of w pid') as [exe|] eqn:Hexe; cbn.
  - destruct (st_owners_cache st !! exe); apply Hst.
  - intros [Hin | ->%list_elem_of_singleton]%elem_of_app; [by apply Hst | by right].
Qed.

Lemma collect_fold_takes l st name pid path exe :
  (forall pid, pid ∈ st_excludepid st -> pid ∈ excludepid \/ exe_of w pid = None) ->
  (name, pid, path) ∈ l ->
  path ∉ blacklist -> pid ∉ excludepid -> exe_of w pid = Some exe ->
  line_kept ignorelist exe (program_line pid exe path) (foldl (collect_step w ignorelist blacklist) st l).
Proof.
  intros Hst Hin Hbl Hpid Hexe. revert st Hst.
  induction l as [|r l IH]; intros st Hst; [by apply elem_of_nil in Hin |].
  cbn [foldl]. apply elem_of_cons in Hin as [<- | Hin].
  - apply foldl_invariant; [intros a b; apply collect_step_line_kept |].
    apply collect_step_takes; [done | | done].
    intros Hx. destruct (Hst pid Hx) as [? | ?]; [done | congruence].
  - apply IH; [done |]. by apply collect_step_excludepid_unreadable.
Qed.

End CollectMore.

(** X3. After the loop over the deleted files every entry of [packages]
    has a non-empty package name, no init script and no systemd service
    yet, at least one process line and no process line twice, and its
    [process_name] is the name of a process of the scan. *)
Theorem collected_entries_shape (w : World) (ignorelist blacklist : list string)
    (excludepid : list Z) (deleted_files : list record) :
  Forall (entry_shape deleted_files)
    (collect_packages w ignorelist blacklist excludepid deleted_files).
Proof.
  eapply Forall_impl; [apply collect_packages_inv |]. intros p [H _]. exact H.
Qed.

(** X4. Every process line of a package comes from a record of the scan
    whose path is not blacklisted, whose pid is not excluded and whose
    executable can be read; and the package is the one this executable is
    filed as: its owner, or the process name when nothing owns it. *)
Theorem collected_lines_sound (w : World) (ignorelist blacklist : list string)
    (excludepid : list Z) (deleted_files : list record) :
  Forall (fun p => Forall (line_from w blacklist excludepid deleted_files (fst p))
                     (processes (snd p)))
    (collect_packages w ignorelist blacklist excludepid deleted_files).
Proof.
  eapply Forall_impl; [apply collect_packages_inv |]. intros p [_ H]. exact H.
Qed.

(** X5. No record is lost: the line of every record whose path is not
    blacklisted, whose pid is not excluded and whose executable can be read
    is among the process lines of the package its executable is filed as,
    unless that package has the empty name or is in the ignore list. *)
Theorem collected_lines_complete (w : World) (ignorelist blacklist : list string)
    (excludepid : list Z) (deleted_files : list record)
    (name : string) (pid : Z) (path exe : string) :
  (name, pid, path) ∈ deleted_files ->
  path ∉ blacklist -> pid ∉ excludepid -> exe_of w pid = Some exe ->
  exists package,
    filed_as w deleted_files exe package /\
    (package = "" \/ package ∈ ignorelist \/
     exists e, (package, e) ∈ collect_packages w ignorelist blacklist excludepid deleted_files
               /\ program_line pid exe path ∈ processes e).
Proof.
  intros Hin Hbl Hpid Hexe.
  destruct (collect_fold_takes w ignorelist blacklist excludepid deleted_files
              {| st_excludepid := excludepid; st_owners_cache := ∅; st_packages := [] |}
              name pid path exe) as (package & Hc & Hkept); try done.
  { intros pid' Hpid'. by left. }
  exists package. split; [|exact Hkept].
  by apply (collect_final_inv w ignorelist blacklist excludepid deleted_files).
Qed.

Lemma collected_lines_complete_witness :
  exists package,
    filed_as (Host.world_of "Debian" "Debian" Host.both)
      [("nginx", 42, "/usr/lib/libfoo.so.1")] "/usr/sbin/nginx" package /\
    (package = "" \/ package ∈ default_ignorelist \/
     exists e, (package, e) ∈ collect_packages (Host.world_of "Debian" "Debian" Host.both)
                 default_ignorelist [] [] [("nginx", 42, "/usr/lib/libfoo.so.1")]
               /\ program_line 42 "/usr/sbin/nginx" "/usr/lib/libfoo.so.1" ∈ processes e).
Proof.
  apply (collected_lines_complete (Host.world_of "Debian" "Debian" Host.both)
           default_ignorelist [] [] [("nginx", 42, "/usr/lib/libfoo.so.1")]
           "nginx" 42 "/usr/lib/libfoo.so.1" "/usr/sbin/nginx").
  - apply list_elem_of_singleton. reflexivity.
  - apply not_elem_of_nil.
  - apply not_elem_of_nil.
  - reflexivity.
Defined.

(** ** Restartable packages *)

Section PlanMore.
Context (w : World).

Lemma has_service_fallback e :
  has_service (fallback_entry w e) = has_service e || service_available w (process_name e).
Proof.
  unfold fallback_entry, has_service.
  destruct (systemdservice e) as [|u us] eqn:Hu; cbn [length Nat.eqb Nat.ltb Nat.leb andb orb].
  - destruct (initscripts e) as [|i scripts] eqn:Hi; cbn [length Nat.eqb Nat.ltb Nat.leb andb orb].
    + destruct (service_available w (process_name e)); [|by rewrite Hu, Hi].
      destruct (path_exists w _); cbn; by rewrite ?Hu, ?Hi.
    + by rewrite Hu, Hi.
  - rewrite Hu. cbn [length Nat.ltb Nat.leb]. by rewrite orb_true_r.
Qed.

End PlanMore.

(** X6. A package is in [restartable] exactly when the package manager
    listed an init script or a kept systemd unit for it, or a service
    named as its process is available. *)
Theorem restartable_iff (w : World) (packages : list (string * pkg_entry)) (name : string) :
  name ∈ restartable (restart_plan (fallback_services w packages))
  <-> exists e, (name, e) ∈ packages /\
        (has_service e = true \/ service_available w (process_name e) = true).
Proof.
  unfold restart_plan. rewrite foldl_plan_step. cbn [restartable app].
  rewrite list_elem_of_fmap. split.
  - intros ([n e'] & -> & Hin). apply list_elem_of_In, filter_In in Hin as [Hin Hs].
    apply list_elem_of_In in Hin. unfold fallback_services in Hin.
    apply list_elem_of_fmap in Hin as ([n' e] & [= -> ->] & Hin).
    cbn [fst snd] in *. exists e. split; [done |].
    rewrite has_service_fallback in Hs. by apply orb_true_iff.
  - intros (e & Hin & Hs). exists (name, fallback_entry w e). split; [done |].
    apply list_elem_of_In, filter_In. split.
    + apply list_elem_of_In. unfold fallback_services.
      apply list_elem_of_fmap. by exists (name, e).
    + cbn [snd]. rewrite has_service_fallback. by apply orb_true_iff.
Qed.

(** ** The kernel check *)

(** X7. On Debian and Red Hat no kernel restart is required exactly when
    one of the names of the last installed kernel occurs in the output of
    [uname -a]; the check never fails there. *)
Theorem check_kernel_packaged (w : World) (kernel_current : string)
    (kernel_versions : list string) :
  check_kernel w Debian kernel_current kernel_versions
    = Ok (negb (existsb (contains kernel_current) kernel_versions))
  /\ check_kernel w RedHat kernel_current kernel_versions
     = Ok (negb (existsb (contains kernel_current) kernel_versions)).
Proof.
  split; induction kernel_versions as [|kernel kernel_versions IH]; cbn [check_kernel existsb];
    try done; by destruct (contains kernel_current kernel).
Qed.

(** ** The installed kernel: what can go wrong, and the Ubuntu names *)

Section KernelMore.


End KernelMore.

(** X8. When [dpkg --get-selections] prints no line on Debian, or
    [rpm -q --last kernel] prints no line with [kernel-] on Red Hat,
    [restartcheck] ends with an uncaught [IndexError], whatever its
    arguments. *)
Theorem restartcheck_no_kernel_raises (w : World) (ignorelist blacklist : pyarg string)
    (excludepid : pyarg Z) (verbose : bool) :
  (family_of w = Some Debian /\ debian_kernels w = []) \/
  (family_of w = Some RedHat /\
   List.filter (fun line => contains line "kernel-")
     (splitlines (cmd_run w "rpm -q --last kernel")) = []) ->
  restartcheck w ignorelist blacklist excludepid verbose = Raise IndexError.
Proof.
  intros [[Hf Hk] | [Hf Hk]]; unfold restartcheck; rewrite Hf; cbn [kernel_versions_of].
  - unfold _kernel_versions_debian. by rewrite Hk.
  - unfold _kernel_versions_redhat. by rewrite Hk.
Qed.

Lemma restartcheck_no_kernel_raises_witness :
  restartcheck (Host.world_of "Debian" "Debian" MoreHosts.bare) PNone PNone PNone true
  = Raise IndexError.
Proof.
  apply restartcheck_no_kernel_raises. left. split; reflexivity.
Defined.



(** ** The kernel check on NI Linux Real-Time *)

Section NilrtMore.
Context (w : World).

Lemma contains_app_r x y sub : contains y sub = true -> contains (x +:+ y) sub = true.
Proof.
  unfold contains. intros Hy. induction x as [|c x IH]; [done |].
  change (String c x +:+ y) with (String c (x +:+ y)). cbn [find].
  destruct (startswith (String c (x +:+ y)) sub); [done |].
  apply Z.leb_le in IH. destruct (find (x +:+ y) sub <? 0) eqn:Hlt.
  - apply Z.ltb_lt in Hlt. lia.
  - apply Z.leb_le. lia.
Qed.

Lemma basename_app x y : contains y "/" = true -> basename (x +:+ y) = basename y.
Proof.
  intros Hy. induction x as [|c x IH]; [done |].
  change (String c x +:+ y) with (String c (x +:+ y)). cbn [basename].
  by rewrite (contains_app_r x y "/" Hy).
Qed.

Lemma basename_modules_dep kernelversion :
  basename ("/lib/modules/" +:+ kernelversion +:+ "/modules.dep") = "modules.dep".
Proof.
  rewrite basename_app; [|by apply contains_app_r].
  by rewrite basename_app.
Qed.

Lemma kernel_modules_changed_no_snapshot kernelversion :
  modules_dep_snapshot w = false -> _kernel_modules_changed_nilrt w kernelversion = Ok true.
Proof.
  intros Hsnap. unfold _kernel_modules_changed_nilrt, _file_changed_nilrt.
  rewrite basename_modules_dep.
  change (path_join "/var/lib/salt/restartcheck_state" ("modules.dep" +:+ ".timestamp"))
    with "/var/lib/salt/restartcheck_state/modules.dep.timestamp".
  change (path_join "/var/lib/salt/restartcheck_state" ("modules.dep" +:+ ".md5sum"))
    with "/var/lib/salt/restartcheck_state/modules.dep.md5sum".
  unfold modules_dep_snapshot in Hsnap. apply andb_false_iff in Hsnap as [-> | ->]; [done |].
  by rewrite orb_true_r.
Qed.

End NilrtMore.

(** X10. On NI Linux Real-Time, as long as the timestamp or the checksum
    snapshot of [modules.dep] is missing from the state directory, the
    kernel check asks for a restart and does not fail, whatever kernel
    runs. *)
Theorem nilrt_restart_until_snapshot (w : World) (kernel_current : string)
    (kernel_versions : list string) :
  modules_dep_snapshot w = false ->
  check_kernel w NILinuxRT kernel_current kernel_versions = Ok true.
Proof.
  intros Hsnap. induction kernel_versions as [|kernel kernel_versions IH];
    cbn [check_kernel]; [done |].
  destruct (contains kernel_current kernel); [|done].
  by rewrite kernel_modules_changed_no_snapshot.
Qed.

Lemma nilrt_restart_until_snapshot_witness :
  check_kernel (Host.world_of "NILinuxRT" "NILinuxRT" MoreHosts.bare) NILinuxRT
    "Linux NI-cRIO 4.14.87-rt49" ["4.14.87-rt49"] = Ok true.
Proof.
  apply nilrt_restart_until_snapshot. reflexivity.
Defined.

(** X11. On NI Linux Real-Time the kernel check answers that no restart is
    required only when one of the installed kernel names occurs in the
    output of [uname -a], the kernel modules and the System API
    configuration are found unchanged for it, and no reboot request was
    witnessed before. *)
Theorem nilrt_no_restart_only_if (w : World) (kernel_current : string)
    (kernel_versions : list string) :
  check_kernel w NILinuxRT kernel_current kernel_versions = Ok false ->
  exists kernel,
    kernel ∈ kernel_versions /\ contains kernel_current kernel = true /\
    _kernel_modules_changed_nilrt w kernel = Ok false /\
    _sysapi_changed_nilrt w = Ok false /\
    reboot_required_witnessed w = false.
Proof.
  induction kernel_versions as [|kernel kernel_versions IH]; cbn [check_kernel]; [done |].
  assert (check_kernel w NILinuxRT kernel_current kernel_versions = Ok false ->
          exists kernel', kernel' ∈ kernel :: kernel_versions /\
            contains kernel_current kernel' = true /\
            _kernel_modules_changed_nilrt w kernel' = Ok false /\
            _sysapi_changed_nilrt w = Ok false /\
            reboot_required_witnessed w = false) as Hrest.
  { intros H. destruct (IH H) as (k & Hin & Hk). exists k. split; [by right | done]. }
  destruct (contains kernel_current kernel) eqn:Hc; [|done].
  destruct (_kernel_modules_changed_nilrt w kernel) as [[|]|] eqn:Hm;
    cbn [mbind result_bind]; [done | | done].
  destruct (_sysapi_changed_nilrt w) as [[|]|] eqn:Hs; cbn [mbind result_bind];
    [done | | done].
  destruct (reboot_required_witnessed w) eqn:Hw; [done |].
  intros _. exists kernel. split; [by left | done].
Qed.

Lemma nilrt_no_restart_only_if_witness :
  exists kernel,
    kernel ∈ ["4.14.87-rt49"] /\
    contains (cmd_run MoreHosts.nilrt "uname -a") kernel = true /\
    _kernel_modules_changed_nilrt MoreHosts.nilrt kernel = Ok false /\
    _sysapi_changed_nilrt MoreHosts.nilrt = Ok false /\
    reboot_required_witnessed MoreHosts.nilrt = false.
Proof.
  apply (nilrt_no_restart_only_if MoreHosts.nilrt). reflexivity.
Defined.

Example kernel_versions_nilrt_ex : _kernel_versions_nilrt MoreHosts.nilrt = Ok ["4.14.87-rt49"].
Proof. reflexivity. Qed.
Example restartcheck_nilrt_ex :
  restartcheck MoreHosts.nilrt PNone PNone PNone true = Ok (OStr no_restart_message).
Proof. reflexivity. Qed.

(** ** What [restartcheck] returns *)

Section ReturnsMore.

Lemma restartcheck_packages_not_fail w f kernel_restart ignorelist blacklist excludepid
    verbose deleted_files comment :
  restartcheck_packages w f kernel_restart ignorelist blacklist excludepid verbose
    deleted_files <> Ok (OFail comment).
Proof.
  unfold restartcheck_packages.
  destruct ((length _ =? 0)%nat && negb kernel_restart); [done |].
  destruct (package_services w f _) as [packages|]; cbn [mbind result_bind]; [|done].
  unfold _format_output. by destruct (negb verbose).
Qed.

End ReturnsMore.

(** X12. [restartcheck] returns the dictionary of a failure in two cases
    only: the OS family is none of Debian, RedHat and NILinuxRT, or the
    kernel check went through and the scan of the processes returned
    [False]; each case has its own comment. *)
Theorem restartcheck_fails_iff (w : World) (ignorelist blacklist : pyarg string)
    (excludepid : pyarg Z) (verbose : bool) (comment : string) :
  restartcheck w ignorelist blacklist excludepid verbose = Ok (OFail comment)
  <-> (family_of w = None /\
       comment = "Only available on Debian, Red Hat and NI Linux Real-Time based systems.")
      \/ (exists f kernel_versions kernel_restart,
            family_of w = Some f /\
            kernel_versions_of w f = Ok kernel_versions /\
            check_kernel w f (cmd_run w "uname -a") kernel_versions = Ok kernel_restart /\
            _deleted_files w = None /\
            comment = "Could not get list of processes. (Do you have root access?)").
Proof.
  unfold restartcheck. destruct (family_of w) as [f|].
  - destruct (kernel_versions_of w f) as [kernel_versions|] eqn:Hkv; cbn [mbind result_bind].
    + destruct (check_kernel w f _ kernel_versions) as [kernel_restart|] eqn:Hck;
        cbn [mbind result_bind].
      * destruct (_deleted_files w) as [deleted_files|].
        -- split.
           ++ intros H. by apply restartcheck_packages_not_fail in H.
           ++ intros [[? _] | (? & ? & ? & _ & _ & _ & ? & _)]; done.
        -- split.
           ++ intros [= <-]. right. by exists f, kernel_versions, kernel_restart.
           ++ intros [[? _] | (? & ? & ? & _ & _ & _ & _ & ->)]; done.
      * split; [done |].
        intros [[? _] | (? & ? & ? & [= <-] & Hkv' & Hck' & _)]; [done |].
        rewrite Hkv in Hkv'. injection Hkv' as <-. congruence.
    + split; [done |].
      intros [[? _] | (? & ? & ? & [= <-] & Hkv' & _)]; [done | congruence].
  - split.
    + intros [= <-]. by left.
    + intros [[_ ->] | (? & ? & ? & ? & _)]; done.
Qed.

(** X13. Without [verbose], and when the package manager can be queried,
    [restartcheck] returns either the string that nothing needs a restart
    (no package was found and no kernel restart is required) or a list:
    the names of the packages found, each once, followed by
    ["System restart required."] when a kernel restart is required. *)
Theorem restartcheck_list_shape (w : World) (f : os_family) (kernel_restart : bool)
    (ignorelist blacklist : list string) (excludepid : list Z)
    (deleted_files : list record) (out : output) :
  restartcheck_packages w f kernel_restart ignorelist blacklist excludepid false deleted_files
    = Ok out ->
  let names := (collect_packages w ignorelist blacklist excludepid deleted_files).*1 in
  (names = [] /\ kernel_restart = false /\ out = OStr no_restart_message)
  \/ (exists l, out = OList (l ++ if kernel_restart then ["System restart required."] else [])
                /\ l ≡ₚ names /\ NoDup l /\ (names <> [] \/ kernel_restart = true)).
Proof.
  intros Hout. cbv zeta. unfold restartcheck_packages in Hout.
  pose proof (collect_packages_keys w ignorelist blacklist excludepid deleted_files)
    as [Hkeys _].
  destruct (collect_packages w ignorelist blacklist excludepid deleted_files)
    as [|p packages] eqn:Hcol.
  - destruct kernel_restart; cbn in Hout.
    + injection Hout as <-. right. exists []. by repeat split; [| apply NoDup_nil_2 | right].
    + injection Hout as <-. by left.
  - right. cbn [length Nat.eqb andb] in Hout.
    destruct (package_services w f (p :: packages)) as [found|] eqn:Hfound;
      cbn [mbind result_bind] in Hout; [|done].
    injection Hout as <-. unfold _format_output. cbn [negb].
    exists (restartable (restart_plan (fallback_services w found))
              ++ nonrestartable (restart_plan (fallback_services w found))).
    split; [destruct kernel_restart; [reflexivity | by rewrite app_nil_r] |].
    assert (restartable (restart_plan (fallback_services w found))
              ++ nonrestartable (restart_plan (fallback_services w found))
            ≡ₚ (p :: packages).*1) as Hperm.
    { rewrite <- (package_services_keys _ _ _ _ Hfound), <- (fallback_services_keys w found).
      unfold restart_plan. rewrite foldl_plan_step.
      cbn [restartable nonrestartable app]. apply filter_partition_keys. }
    split; [exact Hperm |]. split; [by rewrite Hperm | by left].
Qed.

Lemma restartcheck_list_shape_witness :
  let w := Host.world_of "Debian" "Debian" Host.both in
  let names := (collect_packages w default_ignorelist [] []
                  [("nginx", 42, "/usr/lib/libfoo.so.1")]).*1 in
  (names = [] /\ false = false /\ OList ["nginx"] = OStr no_restart_message)
  \/ (exists l, OList ["nginx"] = OList (l ++ [])
                /\ l ≡ₚ names /\ NoDup l /\ (names <> [] \/ false = true)).
Proof.
  intros w names.
  apply (restartcheck_list_shape w Debian false default_ignorelist [] []
           [("nginx", 42, "/usr/lib/libfoo.so.1")] (OList ["nginx"])).
  reflexivity.
Defined.

(** ** Init scripts and units from the package manager *)

Section ServicesMore.
Context (w : World) (f : os_family).

Lemma extends_refl e : extends e e.
Proof. by repeat split. Qed.

Lemma made_by_refl lines e : made_by w f lines e e.
Proof. split; [apply extends_refl |]. split; intros s Hs; by left. Qed.

Lemma made_by_trans lines e1 e2 e3 :
  made_by w f lines e1 e2 -> made_by w f lines e2 e3 -> made_by w f lines e1 e3.
Proof.
  intros ((Hp & Hn & Hi & Hu) & Hi1 & Hu1) ((Hp' & Hn' & Hi' & Hu') & Hi2 & Hu2).
  split; [|split].
  - repeat split; [congruence | congruence | by etrans | by etrans].
  - intros s Hs. destruct (Hi2 s Hs) as [Hs' | ?]; [by apply Hi1 | by right].
  - intros s Hs. destruct (Hu2 s Hs) as [Hs' | ?]; [by apply Hu1 | by right].
Qed.

Lemma made_by_weaken lines lines' e e' :
  (forall line, line ∈ lines -> line ∈ lines') ->
  made_by w f lines e e' -> made_by w f lines' e e'.
Proof.
  intros Hsub (Hext & Hi & Hu). split; [done |]. split; intros s Hs.
  - destruct (Hi s Hs) as [? | (line & ? & ?)]; [by left |]. right. exists line. auto.
  - destruct (Hu s Hs) as [? | (line & ? & ?)]; [by left |]. right. exists line. auto.
Qed.

Lemma add_initscript_made line s e :
  init_script_of_line line s -> made_by w f [line] e (add_initscript s e).
Proof.
  intros Hline. split; [|split].
  - repeat split; [by exists [s] | done].
  - intros s' [Hs' | ->%list_elem_of_singleton]%elem_of_app; [by left |].
    right. exists line. split; [by left | done].
  - intros s' Hs'. by left.
Qed.

Lemma add_systemdservice_made line s e :
  unit_of_line w f line s -> made_by w f [line] e (add_systemdservice s e).
Proof.
  intros Hline. split; [|split].
  - repeat split; [done | by exists [s]].
  - intros s' Hs'. by left.
  - intros s' [Hs' | ->%list_elem_of_singleton]%elem_of_app; [by left |].
    right. exists line. split; [by left | done].
Qed.

Lemma init_script_of_line_intro line :
  startswith (drop_last 1 line) "/etc/init.d/" = true ->
  endswith (drop_last 1 line) ".sh" = false ->
  init_script_of_line line (drop_str 12 (drop_last 1 line)).
Proof.
  intros Hstart Hend. split; [by apply (startswith_drop _ "/etc/init.d/") |].
  destruct (endswith (drop_str 12 (drop_last 1 line)) ".sh") eqn:Hsh; [|done].
  apply endswith_spec in Hsh. rewrite <- Hend. symmetry. apply endswith_spec.
  eapply is_suffix_trans; [exact Hsh |].
  exists "/etc/init.d/". by apply (startswith_drop _ "/etc/init.d/").
Qed.

Lemma file_line_step_made e line :
  (f = NILinuxRT -> path_exists w "" = false) ->
  exists e', file_line_step w f e line = Ok e' /\ made_by w f [line] e e'.
Proof.
  intros Hnilrt. unfold file_line_step.
  set (pth := drop_last 1 line).
  set (e1 := if startswith pth "/etc/init.d/" && negb (endswith pth ".sh")
             then add_initscript (drop_str 12 pth) e else e).
  assert (made_by w f [line] e e1) as H1.
  { unfold e1. destruct (startswith pth "/etc/init.d/") eqn:Hstart; cbn [andb];
      [|apply made_by_refl].
    destruct (endswith pth ".sh") eqn:Hend; cbn [negb]; [apply made_by_refl |].
    by apply add_initscript_made, init_script_of_line_intro. }
  destruct (path_exists w (systemd f)) eqn:Hsys; [|by exists e1].
  destruct (systemd_folder f) as [folder|] eqn:Hfolder.
  2:{ destruct f; try discriminate Hfolder. cbn in Hsys. rewrite Hnilrt in Hsys; done. }
  cbn [or_raise mbind result_bind].
  destruct (startswith pth folder) eqn:Hstart; cbn [andb]; [|by exists e1].
  destruct (endswith pth ".service") eqn:Hend; cbn [andb]; [|by exists e1].
  destruct (find pth ".wants" =? -1) eqn:Hwants; [|by exists e1].
  destruct (fopen w pth) as [body|] eqn:Hbody; [|by exists e1].
  destruct (is_oneshot body) eqn:Hone; cbn [negb]; [by exists e1 |].
  eexists. split; [done |]. eapply made_by_trans; [exact H1 |].
  apply add_systemdservice_made. split; [done |]. exists folder, body.
  pose proof (startswith_drop pth folder Hstart) as Hpth.
  apply Z.eqb_eq in Hwants. rewrite <- Hpth. done.
Qed.

Lemma file_lines_made e lines :
  (f = NILinuxRT -> path_exists w "" = false) ->
  exists e', file_lines w f e lines = Ok e' /\ made_by w f lines e e'.
Proof.
  intros Hnilrt. revert e. induction lines as [|line lines IH]; intros e; cbn [file_lines].
  - exists e. split; [done | apply made_by_refl].
  - destruct (file_line_step_made e line Hnilrt) as (e1 & -> & H1). cbn [mbind result_bind].
    destruct (IH e1) as (e' & -> & H2). exists e'. split; [done |].
    eapply made_by_trans.
    + eapply made_by_weaken; [|exact H1]. intros l ->%list_elem_of_singleton. by left.
    + eapply made_by_weaken; [|exact H2]. intros l Hl. by right.
Qed.

End ServicesMore.

(** X14. The query of the package manager never fails on Debian and Red
    Hat, nor on NI Linux Real-Time as long as the empty path does not
    exist; it keeps the packages, their process lines and process names,
    adds init scripts and systemd units at the end of the lists, and
    whatever it adds comes from a line of the files of that package: an
    init script [s] from a line [/etc/init.d/s] that does not end in [.sh];
    a unit [s] from the path of a readable [.service] file of the unit
    directory, outside [.wants], whose scan found no oneshot directive,
    and only if the service manager binary exists. *)
Theorem package_services_made (w : World) (f : os_family)
    (packages : list (string * pkg_entry)) :
  (f = NILinuxRT -> path_exists w "" = false) ->
  exists found,
    package_services w f packages = Ok found /\
    Forall2 (fun p p' => fst p' = fst p /\
                         made_by w f (listed_files w f (fst p)) (snd p) (snd p'))
      packages found.
Proof.
  intros Hnilrt. induction packages as [|[package e] packages IH]; cbn [package_services].
  - exists []. split; [done | apply Forall2_nil_2].
  - destruct (file_lines_made w f e (readlines (popen_stdout w (cmd_pkg_query f +:+ package)))
                Hnilrt) as (e' & -> & He').
    cbn [mbind result_bind]. destruct IH as (rest & -> & Hrest). cbn [mbind result_bind].
    exists ((package, e') :: rest). split; [done |].
    apply Forall2_cons. split; [|done]. by split.
Qed.

Lemma package_services_made_witness :
  let w := Host.world_of "NILinuxRT" "NILinuxRT" MoreHosts.nilrt_package in
  let e := {| initscripts := []; systemdservice := [];
              processes := [program_line 42 "/usr/sbin/nginx" "/usr/lib/libfoo.so.1"];
              process_name := "nginx" |} in
  (length (listed_files w NILinuxRT "nginx") = 4%nat
   /\ collect_packages w default_ignorelist [] [] [("nginx", 42, "/usr/lib/libfoo.so.1")]
      = [("nginx", e)]
   /\ package_services w NILinuxRT [("nginx", e)]
      = Ok [("nginx", add_initscript "nginx" e)])
  /\ exists found,
       package_services w NILinuxRT [("nginx", e)] = Ok found /\
       Forall2 (fun p p' => fst p' = fst p /\
                  made_by w NILinuxRT (listed_files w NILinuxRT (fst p)) (snd p) (snd p'))
         [("nginx", e)] found.
Proof.
  intros w e. split; [repeat split; reflexivity |].
  apply (package_services_made w NILinuxRT).
  intros _. reflexivity.
Defined.

(** ** A kernel restart is always reported *)

Section ReportMore.

Lemma append_assoc a b c : (a +:+ b) +:+ c = a +:+ b +:+ c.
Proof. induction a as [|x a IH]; simpl; [done | by f_equal]. Qed.

(** [s] is [p] followed by something *)
Lemma package_listing_extends packages names ret :
  exists t, package_listing packages names ret = ret +:+ t.
Proof.
  unfold package_listing. revert ret.
  induction names as [|package names IH]; intros ret; cbn [foldl].
  - exists "". clear. induction ret as [|c ret IH]; simpl; [done | by f_equal].
  - set (lines := from_option processes [] (pkg_lookup package packages)).
    assert (forall r, exists t, foldl (fun ret program => ret +:+ program +:+ nl) r lines
                                = r +:+ t) as Hlines.
    { induction lines as [|program lines IHl]; intros r; cbn [foldl].
      - exists "". clear. induction r as [|c r IH]; simpl; [done | by f_equal].
      - destruct (IHl (r +:+ program +:+ nl)) as [t ->].
        exists ((program +:+ nl) +:+ t). by rewrite !append_assoc. }
    destruct (Hlines (ret +:+ package +:+ ":" +:+ nl)) as [t1 ->].
    destruct (IH ((ret +:+ package +:+ ":" +:+ nl) +:+ t1)) as [t2 ->].
    eexists. rewrite !append_assoc. reflexivity.
Qed.

Lemma format_output_banner packages restartable nonrestartable restartservicecommands
    restartinitcommands :
  exists t,
    _format_output true packages true restartable nonrestartable restartservicecommands
      restartinitcommands
    = OStr (("System restart required." +:+ nl +:+ nl) +:+ t).
Proof.
  unfold _format_output. cbn [negb]. cbv zeta.
  set (banner := "System restart required." +:+ nl +:+ nl).
  assert (forall (s : string), (exists t, s = banner +:+ t) ->
            forall u, exists t, s +:+ u = banner +:+ t) as Happ.
  { intros s [t ->] u. exists (t +:+ u). apply append_assoc. }
  assert (exists t, (if (0 <? length packages)%nat
                     then banner +:+ "Found " +:+ pretty (length packages)
                            +:+ " processes using old versions of upgraded files." +:+ nl
                            +:+ "These are the packages:" +:+ nl
                     else banner) = banner +:+ t) as [t1 ->].
  { destruct (0 <? length packages)%nat; [by eexists |].
    exists "". clear. induction banner as [|c b IH]; simpl; [done | by f_equal]. }
  match goal with
  | |- exists t, OStr (if ?c then ?x else ?y) = _ =>
      assert (exists t, (if c then x else y) = banner +:+ t) as [t ->]; [|by eexists]
  end.
  match goal with
  | |- exists t, (if ?c then ?x else ?y) = _ =>
      assert (exists t, y = banner +:+ t) as Hy
  end.
  { destruct (0 <? length restartable)%nat; [|by eexists].
    match goal with
    | |- exists t, (if ?c then ?x else ?y) = _ =>
        assert (exists t, y = banner +:+ t) as Hy'
    end.
    { match goal with
      | |- exists t, (if ?c then ?x else ?y) = _ =>
          assert (exists t, y = banner +:+ t) as Hy''
      end.
      { destruct (package_listing_extends packages restartable
                    ((banner +:+ t1) +:+ "Of these, " +:+ pretty (length restartable)
                       +:+ " seem to contain systemd service definitions or init scripts "
                       +:+ "which can be used to restart them:" +:+ nl)) as [t2 ->].
        apply Happ, Happ. by eexists. }
      destruct (0 <? length restartservicecommands)%nat; [|done].
      destruct Hy'' as [t ->]. eexists. by rewrite !append_assoc. }
    destruct (0 <? length restartinitcommands)%nat; [|done].
    destruct Hy' as [t ->]. eexists. by rewrite !append_assoc. }
  destruct (0 <? length nonrestartable)%nat; [|done].
  destruct Hy as [t ->].
  destruct (package_listing_extends packages nonrestartable
              ((banner +:+ t) +:+ nl +:+ nl +:+ "These processes "
                 +:+ pretty (length nonrestartable)
                 +:+ " do not seem to have an associated init script "
                 +:+ "to restart them:" +:+ nl)) as [t2 ->].
  eexists. by rewrite !append_assoc.
Qed.

End ReportMore.

(** X15. When a kernel restart is required, [restartcheck] always says so:
    the verbose report starts with the line ["System restart required."]
    followed by an empty line, the list of the other mode ends with
    ["System restart required."]; this also holds when no package was
    found. *)
Theorem kernel_restart_reported (w : World) (f : os_family)
    (ignorelist blacklist : list string) (excludepid : list Z) (verbose : bool)
    (deleted_files : list record) (out : output) :
  restartcheck_packages w f true ignorelist blacklist excludepid verbose deleted_files
    = Ok out ->
  match out with
  | OStr s => exists t, s = ("System restart required." +:+ nl +:+ nl) +:+ t
  | OList l => exists l', l = l' ++ ["System restart required."]
  | OFail _ => False
  end.
Proof.
  unfold restartcheck_packages. cbn [negb]. rewrite andb_false_r.
  destruct (package_services w f _) as [found|]; cbn [mbind result_bind]; [|done].
  intros [= <-]. destruct verbose.
  - destruct (format_output_banner (fallback_services w found)
                (restartable (restart_plan (fallback_services w found)))
                (nonrestartable (restart_plan (fallback_services w found)))
                (restartservicecommands (restart_plan (fallback_services w found)))
                (restartinitcommands (restart_plan (fallback_services w found))))
      as [t ->].
    by exists t.
  - unfold _format_output. cbn [negb]. by eexists.
Qed.

Lemma kernel_restart_reported_witness :
  exists l', ["nginx"; "System restart required."] = l' ++ ["System restart required."].
Proof.
  apply (kernel_restart_reported (Host.world_of "Debian" "Debian" Host.both) Debian
           default_ignorelist [] [] false [("nginx", 42, "/usr/lib/libfoo.so.1")]
           (OList ["nginx"; "System restart required."])).
  reflexivity.
Defined.

(** ** The probe of the file descriptors *)

(** X16. When the link of a file descriptor cannot be read, the probe of
    the file descriptors of that process stops there: the records
    collected so far are kept and the entries after it are not looked
    at. *)
Theorem scan_fds_stops_at_unreadable (w : World) (name : string) (pid : Z)
    (dirpath : string) (before after : list string) (link : string)
    (deleted_files : list record) :
  readlink w (dirpath +:+ link) = None ->
  scan_fds w name pid dirpath (before ++ link :: after) deleted_files
  = scan_fds w name pid dirpath before deleted_files.
Proof.
  intros Hlink. revert deleted_files.
  induction before as [|l before IH]; intros deleted_files; cbn [app scan_fds].
  - by rewrite Hlink.
  - destruct (readlink w (dirpath +:+ l)); [apply IH | done].
Qed.

Lemma scan_fds_stops_at_unreadable_witness :
  let w := Host.world_of "Debian" "Debian" Host.twice in
  scan_fds w "nginx" 42 "/proc/42/fd/" ([] ++ "4" :: ["3"]) []
  = scan_fds w "nginx" 42 "/proc/42/fd/" [] [].
Proof.
  intros w. apply (scan_fds_stops_at_unreadable w). reflexivity.
Defined.

(** * Properties of the log handlers *)

Section TemporaryHandlerFacts.
Import LogHandlers.




Lemma received_app i (a b : list (nat * log_record)) :
  received i (a ++ b) = received i a ++ received i b.
Proof. unfold received. apply omap_app. Qed.

Lemma received_cons i j r (calls : list (nat * log_record)) :
  received i ((j, r) :: calls) = (if (j =? i)%nat then [r] else []) ++ received i calls.
Proof. unfold received. csimpl. by destruct (j =? i)%nat. Qed.

(** the calls of [dispatch m] go to the positions from [m] on *)
Lemma dispatch_received_lt (handlers : list Z) (record : log_record) (m i : nat) :
  (i < m)%nat -> received i (dispatch m handlers record) = [].
Proof.
  revert m. induction handlers as [|lvl handlers IH]; intros m Hm; cbn [dispatch]; [done |].
  destruct (levelno record <? lvl); [apply IH; lia |].
  rewrite received_cons, IH by lia.
  by replace (m =? i)%nat with false by (symmetry; apply Nat.eqb_neq; lia).
Qed.

Lemma dispatch_received (handlers : list Z) (record : log_record) (k i : nat) :
  received (k + i) (dispatch k handlers record)
  = match handlers !! i with
    | Some lvl => if levelno record <? lvl then [] else [record]
    | None => []
    end.
Proof.
  revert k i. induction handlers as [|lvl handlers IH]; intros k i; cbn [dispatch]; [done |].
  destruct i as [|j]; cbn [lookup list_lookup].
  - destruct (levelno record <? lvl).
    + apply dispatch_received_lt. lia.
    + rewrite received_cons, dispatch_received_lt by lia.
      by replace (k =? k + 0)%nat with true by (symmetry; apply Nat.eqb_eq; lia).
  - replace (k + S j)%nat with (S k + j)%nat by lia.
    destruct (levelno record <? lvl); [apply IH |].
    rewrite received_cons, IH.
    by replace (k =? S k + j)%nat with false by (symmetry; apply Nat.eqb_neq; lia).
Qed.

Lemma drain_received (handlers : list Z) (messages : list log_record) (i : nat) (lvl : Z) :
  handlers !! i = Some lvl ->
  received i (drain handlers messages)
  = List.filter (fun record => lvl <=? levelno record) messages.
Proof.
  intros Hi. induction messages as [|record messages IH]; cbn [drain List.filter]; [done |].
  rewrite received_app, IH.
  pose proof (dispatch_received handlers record 0 i) as Hd. cbn [Nat.add] in Hd.
  rewrite Hd, Hi. rewrite (Z.leb_antisym (levelno record) lvl).
  by destruct (levelno record <? lvl).
Qed.

End TemporaryHandlerFacts.

Section SubstringFacts.

Lemma find_startswith s sub : startswith s sub = true -> find s sub = 0.
Proof. intros H. destruct s; cbn [find]; by rewrite H. Qed.

Lemma startswith_app sub post : startswith (sub +:+ post) sub = true.
Proof. apply startswith_spec. by exists post. Qed.

Lemma contains_spec s sub :
  contains s sub = true <-> exists pre post, s = pre +:+ sub +:+ post.
Proof.
  split.
  - unfold contains. induction s as [|c s IH]; cbn [find].
    + destruct (startswith "" sub) eqn:Hs; [|done].
      apply startswith_spec in Hs as [post ->]. intros _. by exists "", post.
    + destruct (startswith (String c s) sub) eqn:Hs.
      * apply startswith_spec in Hs as [post Hs]. intros _. by exists "", post.
      * destruct (find s sub <? 0) eqn:Hlt; [done |]. intros _.
        apply Z.ltb_ge in Hlt. destruct IH as (pre & post & ->); [by apply Z.leb_le |].
        by exists (String c pre), post.
  - intros (pre & post & ->). apply contains_app_r. unfold contains.
    by rewrite find_startswith by apply startswith_app.
Qed.

End SubstringFacts.


(** X18. [sync_with_handlers] with no handler does nothing and keeps the
    stored records; with handlers it empties the queue, and every handler
    receives exactly the stored records whose level is not below its own,
    in the order in which they were stored. *)
Theorem sync_with_handlers_spec (h : LogHandlers.TemporaryLoggingHandler)
    (handlers : list Z) :
  LogHandlers.sync_with_handlers h [] = (h, [])
  /\ match handlers with
     | [] => True
     | _ :: _ =>
         LogHandlers.messages (fst (LogHandlers.sync_with_handlers h handlers)) = []
         /\ Forall (fun c => LogHandlers.received (fst c)
                               (snd (LogHandlers.sync_with_handlers h handlers))
                             = List.filter (fun record => snd c <=? LogHandlers.levelno record)
                                 (LogHandlers.messages h))
              (imap (fun i lvl => (i, lvl)) handlers)
     end.
Proof.
  split; [done |]. destruct handlers as [|lvl0 handlers]; [done |].
  split; [done |]. cbn [LogHandlers.sync_with_handlers snd].
  apply Forall_forall. intros [i lvl] Hin.
  apply list_elem_of_lookup in Hin as [j Hj]. rewrite list_lookup_imap in Hj.
  destruct ((lvl0 :: handlers) !! j) as [l|] eqn:Hl; [|done].
  cbn in Hj. injection Hj as <- <-. cbn [fst snd].
  by apply drain_received.
Qed.

Section QueueHandlerFacts.
Import LogHandlers.
Context (record_str : log_record -> string).

Lemma enqueue_fold (n : nat) (q : bounded_queue) (stderr : list string)
    (records : list log_record) :
  (0 < n)%nat -> maxsize q = Z.of_nat n -> (length (items q) <= n)%nat ->
  foldl (enqueue record_str) (q, stderr) records
  = ({| maxsize := maxsize q; items := take n (items q ++ records) |},
     stderr ++ (full_warning record_str <$> drop (n - length (items q)) records)).
Proof.
  intros Hn. revert q stderr. induction records as [|x records IH];
    intros q stderr Hmax Hlen; cbn [foldl].
  - rewrite app_nil_r, take_ge by done. rewrite drop_nil. cbn. rewrite app_nil_r.
    by destruct q.
  - unfold enqueue at 2. unfold put_nowait.
    destruct ((0 <? maxsize q) && (maxsize q <=? Z.of_nat (length (items q)))) eqn:Hfull.
    + apply andb_true_iff in Hfull as [_ Hfull]. apply Z.leb_le in Hfull.
      assert (length (items q) = n) as Hq by lia.
      rewrite IH by done. f_equal.
      * f_equal. by rewrite (take_app_le _ records), (take_app_le _ (x :: records)) by lia.
      * rewrite Hq, Nat.sub_diag. cbn [drop]. by rewrite <- app_assoc.
    + apply andb_false_iff in Hfull as [Hfull | Hfull];
        [apply Z.ltb_ge in Hfull; lia | apply Z.leb_gt in Hfull].
      rewrite IH; cbn [maxsize items].
      * f_equal; [by rewrite <- app_assoc |]. rewrite length_app. cbn [length].
        replace (n - length (items q))%nat with (S (n - (length (items q) + 1)))%nat by lia.
        done.
      * done.
      * rewrite length_app. cbn [length]. lia.
Qed.

Lemma enqueue_fold_unbounded (q : bounded_queue) (stderr : list string)
    (records : list log_record) :
  maxsize q <= 0 ->
  foldl (enqueue record_str) (q, stderr) records
  = ({| maxsize := maxsize q; items := items q ++ records |}, stderr).
Proof.
  revert q. induction records as [|x records IH]; intros q Hmax; cbn [foldl].
  - rewrite app_nil_r. by destruct q.
  - unfold enqueue at 2. unfold put_nowait.
    replace (0 <? maxsize q) with false by (symmetry; apply Z.ltb_ge; lia). cbn [andb].
    rewrite IH by done. cbn [maxsize items]. by rewrite <- app_assoc.
Qed.

End QueueHandlerFacts.

(** X19. [QueueHandler.enqueue] never lets [queue.Full] escape: of the
    records enqueued into an empty queue of positive size [n] the first [n]
    are in the queue, in order, and each later record is dropped with one
    warning on [sys.stderr]; a queue of size zero or less takes them all. *)
Theorem queue_handler_keeps_oldest (record_str : LogHandlers.log_record -> string)
    (size : Z) (records : list LogHandlers.log_record) :
  foldl (LogHandlers.enqueue record_str)
    ({| LogHandlers.maxsize := size; LogHandlers.items := [] |}, []) records
  = if 0 <? size
    then ({| LogHandlers.maxsize := size;
             LogHandlers.items := take (Z.to_nat size) records |},
          LogHandlers.full_warning record_str <$> drop (Z.to_nat size) records)
    else ({| LogHandlers.maxsize := size; LogHandlers.items := records |}, []).
Proof.
  destruct (0 <? size) eqn:Hsize.
  - apply Z.ltb_lt in Hsize.
    rewrite (enqueue_fold record_str (Z.to_nat size)); cbn; [| lia | lia | lia].
    by rewrite Nat.sub_0_r.
  - apply Z.ltb_ge in Hsize. by rewrite enqueue_fold_unbounded.
Qed.

(** X20. With [sys.stderr] set and Python 3.5.4 or later,
    [SysLogHandler.handleError] writes its warning and skips the default
    error handling exactly when the name of the exception type occurs
    inside the text [FileNotFoundError]: for [FileNotFoundError] itself,
    but also for a type named [Error] or [File]; in every other case the
    default handling runs and nothing is written. *)
Theorem syslog_handleError_spec (stderr : bool) (version_info : Z * Z * Z) (name : string) :
  (LogHandlers.syslog_handleError stderr version_info (Some name)
     = LogHandlers.Done [LogHandlers.Write LogHandlers.syslog_warning]
   <-> stderr = true /\ LogHandlers.version_ge version_info 3 5 4 = true
       /\ exists pre post, "FileNotFoundError" = pre +:+ name +:+ post)
  /\ (LogHandlers.syslog_handleError stderr version_info (Some name)
        = LogHandlers.Done [LogHandlers.Write LogHandlers.syslog_warning]
      \/ LogHandlers.syslog_handleError stderr version_info (Some name)
         = LogHandlers.Done [LogHandlers.SuperHandleError]).
Proof.
  unfold LogHandlers.syslog_handleError. rewrite <- contains_spec.
  destruct stderr; cbn [andb].
  - destruct (LogHandlers.version_ge version_info 3 5 4).
    + destruct (contains "FileNotFoundError" name); (split; [split |]);
        try done; try (by left); try (by right). by intros (_ & _ & ?).
    + split; [|by right]. split; [done | by intros (_ & ? & _)].
  - split; [|by right]. split; [done | by intros (? & _)].
Qed.

(** X21. [RotatingFileHandler.handleError] leaves the error to the default
    handling unless all of this holds: the platform name starts with
    [win], [logging.raiseExceptions] and [sys.stderr] are set, the
    exception type is named [PermissionError] or [OSError] and its
    [winerror] is 32.  When all of it holds the default handling is
    skipped, and the warning is written only if the level of the handler
    is at most [WARNING]: above it the error leaves no trace. *)
Theorem rotating_handleError_spec (platform : string) (raiseExceptions stderr : bool)
    (name : string) (winerror : option Z) (level : Z) (baseFilename : string) :
  let in_use :=
    startswith platform "win" && raiseExceptions && stderr
    && (String.eqb name "PermissionError" || String.eqb name "OSError")
    && bool_decide (winerror = Some 32) in
  LogHandlers.rotating_handleError platform raiseExceptions stderr (Some name)
    (match winerror with
     | Some n => LogHandlers.AttrInt n
     | None => LogHandlers.AttrNone
     end) level baseFilename
  = LogHandlers.Done
      (if in_use
       then if level <=? LogHandlers.WARNING
            then [LogHandlers.Write (LogHandlers.rotate_warning baseFilename)]
            else []
       else [LogHandlers.SuperHandleError]).
Proof.
  cbv zeta. unfold LogHandlers.rotating_handleError.
  destruct (startswith platform "win" && raiseExceptions && stderr); cbn [andb]; [|done].
  destruct (String.eqb name "PermissionError" || String.eqb name "OSError"); cbn [andb];
    [|done].
  destruct winerror as [n|]; [|done].
  destruct (decide (n = 32)) as [-> | Hne].
  - rewrite bool_decide_eq_true_2 by done. by destruct (level <=? LogHandlers.WARNING).
  - rewrite bool_decide_eq_false_2 by congruence.
    destruct n as [|p|p]; try done.
    repeat (destruct p as [p|p|]; try done).
Qed.

Example syslog_error_swallowed :
  LogHandlers.syslog_handleError true (3, 6, 0) (Some "Error")
  = LogHandlers.Done [LogHandlers.Write LogHandlers.syslog_warning].
Proof. reflexivity. Qed.
Example syslog_oserror_default :
  LogHandlers.syslog_handleError true (3, 6, 0) (Some "OSError")
  = LogHandlers.Done [LogHandlers.SuperHandleError].
Proof. reflexivity. Qed.
Example syslog_old_python_default :
  LogHandlers.syslog_handleError true (3, 5, 3) (Some "FileNotFoundError")
  = LogHandlers.Done [LogHandlers.SuperHandleError].
Proof. reflexivity. Qed.
Example rotating_no_winerror :
  LogHandlers.rotating_handleError "win32" true true (Some "OSError") LogHandlers.NoAttr 30 "x"
  = LogHandlers.AttributeError.
Proof. reflexivity. Qed.

(** A path that no line of the [maps] file and no file descriptor of the
    process yields is not among what [reported_by] allows: on the host
    [Host.idle], whose only mapping is not deleted, nothing is. *)
Example reported_by_nothing_on_idle (path : string) :
  ~ reported_by (Host.world_of "Debian" "Debian" Host.idle) ("nginx", 42, path).
Proof.
  intros [_ [(maps & line & p & Hmaps & Hline & Hmatch & Hvalid & _)
            | (links & link & target & Hdir & Hlink & _)]].
  - vm_compute in Hmaps. injection Hmaps as <-.
    apply list_elem_of_singleton in Hline. subst line.
    vm_compute in Hmatch. injection Hmatch as <-. vm_compute in Hvalid. discriminate Hvalid.
  - vm_compute in Hdir. injection Hdir as <-. by apply elem_of_nil in Hlink.
Qed.
